(** * AI Document Analyzer: a shallow embedding of [engine.py], [app.py]
      and [document_analyzer_app.py]

    The repository is a Streamlit page around three calls of the Gemini
    SDK.  The Python code is embedded as functions of a small state and
    exception monad [Py]:

    - the process-wide state ([Runtime]) holds the chronological trace of
      the calls that leave the script (SDK calls, the file-system calls
      that write or remove, and Streamlit elements), the secrets, the host
      the process runs on, the tables of [@st.cache_resource] and the
      [st.session_state] of the session whose script is running;
    - the SDK is an oracle ([Remote]) and so is the operating system
      ([Host]): each call is answered from the whole history, so every
      behaviour of the hosted service and of the file system is covered
      (a name the file system refuses, a file that another process
      removed, a full disk);
    - Python exceptions are outcomes ([Raises]); [try]/[except]/[finally]
      are combinators on [Py].

    [engine.py] and [app.py] are the modules [engine] and [app];
    the single-file variant [document_analyzer_app.py] is the module
    [document_analyzer_app]. *)

From stdpp Require Import base option list strings gmap.
From Stdlib Require Import Ascii String.

Local Open Scope string_scope.
Local Open Scope list_scope.

(** ** Python values *)

(** [genai.Client]: an opaque handle. *)
Record Client := { client_id : nat }.

(** [google.genai.types]: the code reads only [File.name]. *)
Module types.
Record File := { name : string }.
End types.

(** Streamlit's [UploadedFile]: the code reads [.name] and [.getbuffer()].
    [name] is the file name the browser sent; nothing in the code checks
    it. *)
Module UploadedFile.
Record t := { name : string; getbuffer : string }.
End UploadedFile.

(** A chat message, the dict [{"role": ..., "content": ...}].  [content] is
    whatever [process_document] returned; [response.text] may be [None]. *)
Record Message := { role : string; content : option string }.

#[global] Instance Client_eq_dec : EqDecision Client.
Proof. solve_decision. Defined.
#[global] Instance File_eq_dec : EqDecision types.File.
Proof. solve_decision. Defined.
#[global] Instance UploadedFile_eq_dec : EqDecision UploadedFile.t.
Proof. solve_decision. Defined.
#[global] Instance Message_eq_dec : EqDecision Message.
Proof. solve_decision. Defined.

(** A [types.File] is hashed by its fields. *)
#[global] Instance File_countable : Countable types.File.
Proof.
  apply (inj_countable' types.name (λ n, {| types.name := n |})).
  by intros [].
Defined.

(** ** Exceptions *)

(** The exception classes the code can meet.  [RerunException] is the
    exception [st.rerun()] raises; it derives from [BaseException] only, so
    [except Exception] lets it through.  [OSError] stands for what a call of
    the operating system raises ([OSError] and its subclasses, [ValueError]
    for a name the interpreter refuses); [FileNotFoundError] is raised by
    [st.secrets] when there is no secrets file; [Exception] stands for every
    other subclass of [Exception] (the SDK's errors). *)
Inductive ExcClass :=
| KeyError | AttributeError | TypeError | FileNotFoundError | OSError
| Exception | RerunException.

#[global] Instance ExcClass_eq_dec : EqDecision ExcClass.
Proof. solve_decision. Defined.

(** An exception instance: its class and [str(e)]. *)
Record PyExc := { exc_class : ExcClass; exc_str : string }.

(** [except KeyError]: [FileNotFoundError] and [OSError] are not subclasses
    of [KeyError]. *)
Definition except_KeyError (e : PyExc) : bool :=
  bool_decide (exc_class e = KeyError).

(** [except Exception] *)
Definition except_Exception (e : PyExc) : bool :=
  negb (bool_decide (exc_class e = RerunException)).

Definition is_RerunException (e : PyExc) : bool :=
  bool_decide (exc_class e = RerunException).

(** ** The trace *)

(** A call is recorded when it is made, whether it then returns or
    raises.  [Path.mkdir] and [os.listdir] are not recorded. *)
Inductive Event :=
| genai_Client (api_key : string)
    (** [genai.Client(api_key=api_key)] *)
| files_upload (file : string)
    (** [client.files.upload(file=path)] *)
| files_delete (name : string)
    (** [client.files.delete(name=name)] *)
| generate_content (model : string) (contents : types.File * string)
    (** [client.models.generate_content(model=..., contents=[file, prompt])] *)
| open_wb (path : string) (data : string)
    (** [with open(path, "wb") as f: f.write(data)] *)
| os_remove (path : string)
| os_rmdir (path : string)
| st_error (msg : string)
| st_warning (msg : string)
| st_info (msg : string)
| st_success (msg : string)
| st_toast (msg : string)
| st_code (msg : string)
| st_chat_message (role : string) (body : option string)
    (** [with st.chat_message(role): st.markdown(body)] *).

#[global] Instance Event_eq_dec : EqDecision Event.
Proof. solve_decision. Defined.

(** The Streamlit elements among the events.  [@st.cache_resource] records
    the elements a cached function shows, with its result, and shows them
    again each time the result is reused. *)
Inductive Element :=
| error_element (msg : string)
| warning_element (msg : string)
| info_element (msg : string)
| success_element (msg : string)
| toast_element (msg : string)
| code_element (msg : string)
| chat_message_element (role : string) (body : option string).

Definition show (el : Element) : Event :=
  match el with
  | error_element msg => st_error msg
  | warning_element msg => st_warning msg
  | info_element msg => st_info msg
  | success_element msg => st_success msg
  | toast_element msg => st_toast msg
  | code_element msg => st_code msg
  | chat_message_element role body => st_chat_message role body
  end.

Definition shown (e : Event) : option Element :=
  match e with
  | st_error msg => Some (error_element msg)
  | st_warning msg => Some (warning_element msg)
  | st_info msg => Some (info_element msg)
  | st_success msg => Some (success_element msg)
  | st_toast msg => Some (toast_element msg)
  | st_code msg => Some (code_element msg)
  | st_chat_message role body => Some (chat_message_element role body)
  | _ => None
  end.

(** ** The hosted service and the operating system *)

(** What a call that leaves the script does: it returns a value, or raises
    an exception [e] with [str(e) = msg]. *)
Inductive Reply (A : Type) :=
| Ok (a : A)
| Err (msg : string).
Arguments Ok {A} a.
Arguments Err {A} msg.

(** The SDK as an oracle.  Each call sees the history of the process so far,
    so that, for one, deleting a name twice may succeed and then fail. *)
Record Remote := {
  on_Client : list Event -> string -> Reply Client;
  on_upload : list Event -> Client -> string -> Reply types.File;
  on_delete : list Event -> Client -> string -> Reply ();
  on_generate : list Event -> Client -> string -> types.File * string ->
                Reply (option string)
}.

(** The file system of the host as an oracle, in the same way:
    [Path(dir).mkdir(exist_ok=True)], [open(path, "wb")] followed by the
    write, [os.remove(path)], [os.listdir(dir)] and [os.rmdir(dir)].
    Whether [open] accepts a path (a name with a separator, an empty or an
    over-long name), whether the file is still there when it is removed and
    what else the directory holds are the host's to say. *)
Record Host := {
  on_mkdir : list Event -> string -> Reply ();
  on_open : list Event -> string -> string -> Reply ();
  on_remove : list Event -> string -> Reply ();
  on_listdir : list Event -> string -> Reply (list string);
  on_rmdir : list Event -> string -> Reply ()
}.

(** A host on which every call returns and where [temp_uploads] never holds
    anything but the file being uploaded. *)
Definition host_ok : Host :=
  {| on_mkdir := λ _ _, Ok ();
     on_open := λ _ _ _, Ok ();
     on_remove := λ _ _, Ok ();
     on_listdir := λ _ _, Ok [];
     on_rmdir := λ _ _, Ok () |}.

(** ** [st.session_state] *)

(** The keys the code uses; [None] is "key not in st.session_state".
    [client] and [client_error] are used by [document_analyzer_app.py]
    only. *)
Record SessionState := {
  uploaded_file_object : option (option types.File);
  cleanup_done : option bool;
  messages : option (list Message);
  client : option (option Client);
  client_error : option string
}.

Definition new_session : SessionState :=
  {| uploaded_file_object := None; cleanup_done := None; messages := None;
     client := None; client_error := None |}.

Definition set_uploaded_file_object (v : option types.File) (s : SessionState) :=
  {| uploaded_file_object := Some v; cleanup_done := cleanup_done s;
     messages := messages s; client := client s;
     client_error := client_error s |}.

Definition set_cleanup_done (v : bool) (s : SessionState) :=
  {| uploaded_file_object := uploaded_file_object s; cleanup_done := Some v;
     messages := messages s; client := client s;
     client_error := client_error s |}.

Definition set_messages (v : list Message) (s : SessionState) :=
  {| uploaded_file_object := uploaded_file_object s;
     cleanup_done := cleanup_done s; messages := Some v; client := client s;
     client_error := client_error s |}.

Definition set_client (v : option Client) (s : SessionState) :=
  {| uploaded_file_object := uploaded_file_object s;
     cleanup_done := cleanup_done s; messages := messages s;
     client := Some v; client_error := client_error s |}.

Definition set_client_error (v : string) (s : SessionState) :=
  {| uploaded_file_object := uploaded_file_object s;
     cleanup_done := cleanup_done s; messages := messages s;
     client := client s; client_error := Some v |}.

(** ** The process *)

(** [trace] is chronological (oldest first).  [secrets] holds the keys of
    [st.secrets]; [secrets_toml] tells whether a secrets file exists at all,
    which decides what a missing key raises.  [host] is the operating system
    under the process.  The [cache_] tables are those of
    [@st.cache_resource], one per decorated function, keyed by the arguments
    whose name has no leading underscore; the [elements_] tables hold, under
    the same keys, the elements the stored run showed.
    ([engine.initialize_client] shows none and has no such table.)
    [session_state] belongs to the session whose script is running. *)
Record Runtime := {
  trace : list Event;
  secrets : gmap string string;
  secrets_toml : bool;
  host : Host;
  cache_initialize_client : gmap () (option Client * option string);
  cache_upload_document : gmap (string * string) (option types.File);
  elements_upload_document : gmap (string * string) (list Element);
  cache_delete_uploaded_file : gmap types.File ();
  elements_delete_uploaded_file : gmap types.File (list Element);
  session_state : SessionState
}.

(** A process that has just started, on a host that answers every call, with
    a secrets file that holds [sec] (possibly nothing). *)
Definition new_process (sec : gmap string string) : Runtime :=
  {| trace := []; secrets := sec; secrets_toml := true; host := host_ok;
     cache_initialize_client := ∅;
     cache_upload_document := ∅; elements_upload_document := ∅;
     cache_delete_uploaded_file := ∅; elements_delete_uploaded_file := ∅;
     session_state := new_session |}.

Definition log (e : Event) (rt : Runtime) : Runtime :=
  {| trace := trace rt ++ [e]; secrets := secrets rt;
     secrets_toml := secrets_toml rt; host := host rt;
     cache_initialize_client := cache_initialize_client rt;
     cache_upload_document := cache_upload_document rt;
     elements_upload_document := elements_upload_document rt;
     cache_delete_uploaded_file := cache_delete_uploaded_file rt;
     elements_delete_uploaded_file := elements_delete_uploaded_file rt;
     session_state := session_state rt |}.

Definition log_all (es : list Event) (rt : Runtime) : Runtime :=
  foldl (λ rt e, log e rt) rt es.

Definition with_cache_initialize_client
    (c : gmap () (option Client * option string)) (rt : Runtime) :=
  {| trace := trace rt; secrets := secrets rt;
     secrets_toml := secrets_toml rt; host := host rt;
     cache_initialize_client := c;
     cache_upload_document := cache_upload_document rt;
     elements_upload_document := elements_upload_document rt;
     cache_delete_uploaded_file := cache_delete_uploaded_file rt;
     elements_delete_uploaded_file := elements_delete_uploaded_file rt;
     session_state := session_state rt |}.

Definition with_cache_upload_document
    (c : gmap (string * string) (option types.File)) (rt : Runtime) :=
  {| trace := trace rt; secrets := secrets rt;
     secrets_toml := secrets_toml rt; host := host rt;
     cache_initialize_client := cache_initialize_client rt;
     cache_upload_document := c;
     elements_upload_document := elements_upload_document rt;
     cache_delete_uploaded_file := cache_delete_uploaded_file rt;
     elements_delete_uploaded_file := elements_delete_uploaded_file rt;
     session_state := session_state rt |}.

Definition with_elements_upload_document
    (els : gmap (string * string) (list Element)) (rt : Runtime) :=
  {| trace := trace rt; secrets := secrets rt;
     secrets_toml := secrets_toml rt; host := host rt;
     cache_initialize_client := cache_initialize_client rt;
     cache_upload_document := cache_upload_document rt;
     elements_upload_document := els;
     cache_delete_uploaded_file := cache_delete_uploaded_file rt;
     elements_delete_uploaded_file := elements_delete_uploaded_file rt;
     session_state := session_state rt |}.

Definition with_cache_delete_uploaded_file (c : gmap types.File ())
    (rt : Runtime) :=
  {| trace := trace rt; secrets := secrets rt;
     secrets_toml := secrets_toml rt; host := host rt;
     cache_initialize_client := cache_initialize_client rt;
     cache_upload_document := cache_upload_document rt;
     elements_upload_document := elements_upload_document rt;
     cache_delete_uploaded_file := c;
     elements_delete_uploaded_file := elements_delete_uploaded_file rt;
     session_state := session_state rt |}.

Definition with_elements_delete_uploaded_file
    (els : gmap types.File (list Element)) (rt : Runtime) :=
  {| trace := trace rt; secrets := secrets rt;
     secrets_toml := secrets_toml rt; host := host rt;
     cache_initialize_client := cache_initialize_client rt;
     cache_upload_document := cache_upload_document rt;
     elements_upload_document := elements_upload_document rt;
     cache_delete_uploaded_file := cache_delete_uploaded_file rt;
     elements_delete_uploaded_file := els;
     session_state := session_state rt |}.

Definition with_session_state (s : SessionState) (rt : Runtime) :=
  {| trace := trace rt; secrets := secrets rt;
     secrets_toml := secrets_toml rt; host := host rt;
     cache_initialize_client := cache_initialize_client rt;
     cache_upload_document := cache_upload_document rt;
     elements_upload_document := elements_upload_document rt;
     cache_delete_uploaded_file := cache_delete_uploaded_file rt;
     elements_delete_uploaded_file := elements_delete_uploaded_file rt;
     session_state := s |}.

(** The secrets file is edited: it now holds [sec]. *)
Definition with_secrets (sec : gmap string string) (rt : Runtime) :=
  {| trace := trace rt; secrets := sec;
     secrets_toml := secrets_toml rt; host := host rt;
     cache_initialize_client := cache_initialize_client rt;
     cache_upload_document := cache_upload_document rt;
     elements_upload_document := elements_upload_document rt;
     cache_delete_uploaded_file := cache_delete_uploaded_file rt;
     elements_delete_uploaded_file := elements_delete_uploaded_file rt;
     session_state := session_state rt |}.

(** There is no secrets file ([.streamlit/secrets.toml] was never
    created). *)
Definition without_secrets_toml (rt : Runtime) :=
  {| trace := trace rt; secrets := ∅;
     secrets_toml := false; host := host rt;
     cache_initialize_client := cache_initialize_client rt;
     cache_upload_document := cache_upload_document rt;
     elements_upload_document := elements_upload_document rt;
     cache_delete_uploaded_file := cache_delete_uploaded_file rt;
     elements_delete_uploaded_file := elements_delete_uploaded_file rt;
     session_state := session_state rt |}.

(** The process runs on the host [h]. *)
Definition with_host (h : Host) (rt : Runtime) :=
  {| trace := trace rt; secrets := secrets rt;
     secrets_toml := secrets_toml rt; host := h;
     cache_initialize_client := cache_initialize_client rt;
     cache_upload_document := cache_upload_document rt;
     elements_upload_document := elements_upload_document rt;
     cache_delete_uploaded_file := cache_delete_uploaded_file rt;
     elements_delete_uploaded_file := elements_delete_uploaded_file rt;
     session_state := session_state rt |}.

(** ** The monad *)

Inductive Outcome (A : Type) :=
| Returns (a : A)
| Raises (e : PyExc).
Arguments Returns {A} a.
Arguments Raises {A} e.

Definition Py (A : Type) : Type := Runtime -> Outcome A * Runtime.

#[global] Instance Py_ret : MRet Py := λ A a rt, (Returns a, rt).

#[global] Instance Py_bind : MBind Py := λ A B f m rt,
  match m rt with
  | (Returns a, rt') => f a rt'
  | (Raises e, rt') => (Raises e, rt')
  end.

Definition raise {A} (c : ExcClass) (msg : string) : Py A :=
  λ rt, (Raises {| exc_class := c; exc_str := msg |}, rt).

Definition emit (e : Event) : Py () := λ rt, (Returns (), log e rt).

Definition get_runtime : Py Runtime := λ rt, (Returns rt, rt).

(** Nothing to do (an [if] without [else]). *)
Definition skip : Py () := mret ().

(** [try: body / except C as e: handler e] where [catches] decides
    [isinstance(e, C)]. *)
Definition try_except {A} (body : Py A) (catches : PyExc -> bool)
    (handler : PyExc -> Py A) : Py A := λ rt,
  match body rt with
  | (Returns a, rt') => (Returns a, rt')
  | (Raises e, rt') => if catches e then handler e rt' else (Raises e, rt')
  end.

(** [try: body / finally: final]: [final] runs on every exit of [body]; the
    outcome of [body] stands unless [final] raises. *)
Definition try_finally {A} (body : Py A) (final : Py ()) : Py A := λ rt,
  match body rt with
  | (o, rt') =>
      match final rt' with
      | (Returns _, rt'') => (o, rt'')
      | (Raises e, rt'') => (Raises e, rt'')
      end
  end.

(** [for x in l: body x] *)
Fixpoint for_each {A} (l : list A) (body : A -> Py ()) : Py () :=
  match l with
  | [] => mret ()
  | x :: l' => body x ;; for_each l' body
  end.

(** ** Primitives: Streamlit, the file system, the SDK, the cache *)

(** [st.session_state.<key>] read as an attribute: [AttributeError] when the
    key is absent. *)
Definition read_key {A} (key : string) (field : SessionState -> option A) : Py A :=
  λ rt, match field (session_state rt) with
        | Some v => (Returns v, rt)
        | None => raise AttributeError key rt
        end.

(** [key in st.session_state] *)
Definition has_key {A} (field : SessionState -> option A) : Py bool :=
  λ rt, (Returns (bool_decide (is_Some (field (session_state rt)))), rt).

(** [st.session_state.<key> = v] *)
Definition assign (upd : SessionState -> SessionState) : Py () :=
  λ rt, (Returns (), with_session_state (upd (session_state rt)) rt).

(** [st.secrets[key]]: a key that is there is returned; a key that is
    missing from the secrets file raises [KeyError]; with no secrets file at
    all the lookup raises [FileNotFoundError] (Streamlit's
    [StreamlitSecretNotFoundError] derives from it), which an
    [except KeyError] does not catch. *)
Definition st_secrets (key : string) : Py string :=
  λ rt, match secrets rt !! key with
        | Some v => (Returns v, rt)
        | None =>
            if secrets_toml rt then raise KeyError key rt
            else raise FileNotFoundError "No secrets found." rt
        end.

(** [st.rerun()]: stops the script; the runner then starts it again. *)
Definition st_rerun : Py () := raise RerunException "".

(** *** [pathlib] *)

(** [Path("temp_uploads") / file_name] and its [str], as [PurePosixPath]
    computes them: the name is split at "/", empty components and "." are
    dropped (".." is kept), and a name that starts with "/" is absolute and
    replaces the directory (two leading slashes, and only two, are kept). *)
Fixpoint split_sep (s cur : string) : list string :=
  match s with
  | EmptyString => [cur]
  | String a s' =>
      if Ascii.eqb a "/"%char then cur :: split_sep s' ""
      else split_sep s' (cur +:+ String a EmptyString)
  end.

Definition path_parts (s : string) : list string :=
  filter (λ p, p ≠ "" ∧ p ≠ ".") (split_sep s "").

Definition path_root (s : string) : string :=
  match s with
  | String "/"%char (String "/"%char (String "/"%char _)) => "/"
  | String "/"%char (String "/"%char _) => "//"
  | String "/"%char _ => "/"
  | _ => ""
  end.

Definition temp_dir : string := "temp_uploads".

Definition temp_file_path (file_name : string) : string :=
  if bool_decide (path_root file_name = "")
  then String.concat "/" (temp_dir :: path_parts file_name)
  else path_root file_name +:+ String.concat "/" (path_parts file_name).

(** *** The file system *)

(** A call of the operating system that is recorded: answered by the host
    from the history before it. *)
Definition os_call {A} (e : Event) (answer : Host -> list Event -> Reply A)
    : Py A :=
  λ rt, match answer (host rt) (trace rt) with
        | Ok a => (Returns a, log e rt)
        | Err msg => raise OSError msg (log e rt)
        end.

(** A call of the operating system that is not recorded. *)
Definition os_query {A} (answer : Host -> list Event -> Reply A) : Py A :=
  λ rt, match answer (host rt) (trace rt) with
        | Ok a => (Returns a, rt)
        | Err msg => raise OSError msg rt
        end.

(** [temp_dir.mkdir(exist_ok=True)] *)
Definition mkdir_exist_ok (dir : string) : Py () :=
  os_query (λ h t, on_mkdir h t dir).

(** [with open(path, "wb") as f: f.write(data)] *)
Definition open_wb_write (path data : string) : Py () :=
  os_call (open_wb path data) (λ h t, on_open h t path data).

(** [os.remove(path)] *)
Definition os_remove_file (path : string) : Py () :=
  os_call (os_remove path) (λ h t, on_remove h t path).

(** [os.listdir(dir)] *)
Definition os_listdir (dir : string) : Py (list string) :=
  os_query (λ h t, on_listdir h t dir).

(** [os.rmdir(dir)] *)
Definition os_rmdir_dir (dir : string) : Py () :=
  os_call (os_rmdir dir) (λ h t, on_rmdir h t dir).

(** *** [@st.cache_resource] *)

(** The decorator on a function whose hashed arguments are [key].  A stored
    result is returned without running the body, and the elements the
    stored run showed are shown again.  Else the body runs and, unless it
    raises, its result is stored together with the elements it showed.
    [elements] and [store_elements] are the table of those elements. *)
Definition st_cache_resource {K V} `{Countable K}
    (table : Runtime -> gmap K V) (store : gmap K V -> Runtime -> Runtime)
    (elements : Runtime -> gmap K (list Element))
    (store_elements : gmap K (list Element) -> Runtime -> Runtime)
    (key : K) (body : Py V) : Py V := λ rt,
  match table rt !! key with
  | Some v =>
      (Returns v, log_all (show <$> default [] (elements rt !! key)) rt)
  | None =>
      match body rt with
      | (Returns v, rt') =>
          let showed := omap shown (drop (List.length (trace rt)) (trace rt')) in
          (Returns v,
           store_elements (<[key := showed]> (elements rt'))
             (store (<[key := v]> (table rt')) rt'))
      | (Raises e, rt') => (Raises e, rt')
      end
  end.

Section WithRemote.

Variable remote : Remote.

(** An SDK call: logged, answered by the oracle from the history before it. *)
Definition sdk_call {A} (e : Event) (answer : list Event -> Reply A) : Py A :=
  λ rt, match answer (trace rt) with
        | Ok a => (Returns a, log e rt)
        | Err msg => raise Exception msg (log e rt)
        end.

Definition genai_Client_new (api_key : string) : Py Client :=
  sdk_call (genai_Client api_key) (λ h, on_Client remote h api_key).

Definition client_files_upload (c : Client) (file : string) : Py types.File :=
  sdk_call (files_upload file) (λ h, on_upload remote h c file).

Definition client_files_delete (c : Client) (name : string) : Py () :=
  sdk_call (files_delete name) (λ h, on_delete remote h c name).

Definition client_models_generate_content (c : Client) (model : string)
    (contents : types.File * string) : Py (option string) :=
  sdk_call (generate_content model contents)
           (λ h, on_generate remote h c model contents).

End WithRemote.

(** ** engine.py *)

Module engine.
Section WithRemote.

Variable remote : Remote.

Definition KEY_not_found : string :=
  "🛑KEY not found in Streamlit secrets. " +:+
  "Please create a .streamlit/secrets.toml file and add your key.".

(** The body of [initialize_client].  The first [try] either binds
    [api_key] or, in its [except KeyError], returns from the function: the
    handler yields [None] here and the [match] returns the pair. *)
Definition initialize_client_body : Py (option Client * option string) :=
  api_key ← try_except
    (api_key ← st_secrets "GEMINI_API_KEY";
     if bool_decide (api_key ∈ ["YOUR_ACTUAL_API_KEY"; ""])
     then raise KeyError "API key placeholder used."
     else mret (Some api_key))
    except_KeyError
    (λ _, mret None);
  match api_key with
  | None => mret (None, Some KEY_not_found)
  | Some api_key =>
      try_except
        (client ← genai_Client_new remote api_key;
         mret (Some client, None))
        except_Exception
        (λ e, mret (None, Some ("Error initializing Gemini Client: " +:+ exc_str e)))
  end.

(** [@st.cache_resource def initialize_client()].  The body shows no
    element (lemma [initialize_client_body_run]), so there is none to keep
    with the result. *)
Definition initialize_client : Py (option Client * option string) :=
  st_cache_resource cache_initialize_client with_cache_initialize_client
    (λ _, ∅) (λ _ rt, rt) ()
    initialize_client_body.

Definition upload_document_body (_client : Client)
    (uploaded_file_obj : UploadedFile.t) : Py (option types.File) :=
  let file_name := UploadedFile.name uploaded_file_obj in
  mkdir_exist_ok temp_dir;;
  let temp_file_path := temp_file_path file_name in
  open_wb_write temp_file_path (UploadedFile.getbuffer uploaded_file_obj);;
  try_finally
    (try_except
       (uploaded_file ← client_files_upload remote _client temp_file_path;
        mret (Some uploaded_file))
       except_Exception
       (λ e, emit (st_error ("Error during file upload: " +:+ exc_str e));;
             mret None))
    (os_remove_file temp_file_path;;
     entries ← os_listdir temp_dir;
     match entries with
     | [] => os_rmdir_dir temp_dir
     | _ :: _ => skip
     end).

(** [@st.cache_resource def upload_document(_client, uploaded_file_obj)]:
    [_client] is not hashed; an [UploadedFile] is hashed by its name and its
    content.  Lines 44 to 48 are before the [try]: what [mkdir], [open] or
    the write raise leaves the function at once. *)
Definition upload_document (_client : Client)
    (uploaded_file_obj : UploadedFile.t) : Py (option types.File) :=
  st_cache_resource cache_upload_document with_cache_upload_document
    elements_upload_document with_elements_upload_document
    (UploadedFile.name uploaded_file_obj, UploadedFile.getbuffer uploaded_file_obj)
    (upload_document_body _client uploaded_file_obj).

Definition process_document (client : Client) (uploaded_file : types.File)
    (prompt : string) : Py (option string) :=
  let contents := (uploaded_file, prompt) in
  try_except
    (client_models_generate_content remote client "gemini-2.5-flash" contents)
    except_Exception
    (λ e, emit (st_error ("Error during content generation: " +:+ exc_str e));;
          mret (Some "Failed to get response from Gemini.")).

Definition delete_uploaded_file (_client : Client) (uploaded_file : types.File)
    : Py () :=
  try_except
    (client_files_delete remote _client (types.name uploaded_file);;
     emit (st_toast ("Clean up complete. File " +:+ types.name uploaded_file
                     +:+ " deleted.")))
    except_Exception
    (λ e, emit (st_warning ("Failed to delete file " +:+ types.name uploaded_file
                            +:+ ". Error: " +:+ exc_str e))).

End WithRemote.
End engine.

(** ** The widgets of one script run *)

(** What the page's widgets return in one run of the script:
    [st.file_uploader], the button "Process Document", the button "Manually
    Delete File from API" and [st.chat_input]. *)
Record Widgets := {
  file_uploader : option UploadedFile.t;
  process_clicked : bool;
  delete_clicked : bool;
  chat_input : option string
}.

(** The run that follows [st.rerun()]: the uploader keeps its file, no
    button is pressed, nothing is typed. *)
Definition after_rerun (w : Widgets) : Widgets :=
  {| file_uploader := file_uploader w; process_clicked := false;
     delete_clicked := false; chat_input := None |}.

Definition greeting : Message :=
  {| role := "assistant";
     content := Some "Document analysis ready! Ask me any question about the content." |}.

(** ** app.py *)

Module app.
Section WithRemote.

Variable remote : Remote.

(** [prompt] is what [st.chat_input] returned in this run.  [file_obj]
    (line 46) is the value tested on line 17: no statement in between
    assigns the key. *)
Definition chat_with_document (client : Client) (prompt : option string)
    : Py () :=
  rt ← get_runtime;
  match uploaded_file_object (session_state rt) with
  | None | Some None =>
      emit (st_info "Upload a document in the sidebar to begin chatting.")
  | Some (Some file_obj) =>
      present ← has_key messages;
      (if (present : bool) then skip
       else assign (set_messages []);;
            ms ← read_key "messages" messages;
            assign (set_messages (ms ++ [greeting])));;
      ms ← read_key "messages" messages;
      for_each ms (λ message, emit (st_chat_message (role message) (content message)));;
      match prompt with
      | None | Some "" => skip
      | Some prompt =>
          ms ← read_key "messages" messages;
          assign (set_messages (ms ++ [{| role := "user"; content := Some prompt |}]));;
          emit (st_chat_message "user" (Some prompt));;
          response ← engine.process_document remote client file_obj prompt;
          emit (st_chat_message "assistant" response);;
          ms ← read_key "messages" messages;
          assign (set_messages (ms ++ [{| role := "assistant"; content := response |}]))
      end
  end.

(** The block under "Process Document" (lines 93 to 108). *)
Definition process_document_clicked (client : Client)
    (uploaded_file_input : UploadedFile.t) : Py () :=
  current ← read_key "uploaded_file_object" uploaded_file_object;
  match current with
  | Some current => engine.delete_uploaded_file remote client current
  | None => skip
  end;;
  file_obj ← engine.upload_document remote client uploaded_file_input;
  match file_obj with
  | Some file_obj =>
      assign (set_uploaded_file_object (Some file_obj));;
      assign (set_messages []);;
      assign (set_cleanup_done false);;
      st_rerun
  | None => skip
  end.

(** The block under "Manually Delete File from API" (lines 115 to 123). *)
Definition manual_delete (client : Client) (w : Widgets) : Py () :=
  current ← read_key "uploaded_file_object" uploaded_file_object;
  match current with
  | Some current =>
      done ← read_key "cleanup_done" cleanup_done;
      if negb (done : bool) then
        if delete_clicked w then
          engine.delete_uploaded_file remote client current;;
          assign (set_uploaded_file_object None);;
          assign (set_cleanup_done true);;
          assign (set_messages []);;
          st_rerun
        else skip
      else skip
  | None => skip
  end.

Definition main (w : Widgets) : Py () :=
  '(client, error_message) ← engine.initialize_client remote;
  match client with
  | None =>
      match error_message with
      | Some error_message =>
          emit (st_error ("🛑 Client failed to initialize. " +:+ error_message))
      | None => raise TypeError "can only concatenate str"
      end
  | Some client =>
      present ← has_key uploaded_file_object;
      (if (present : bool) then skip else assign (set_uploaded_file_object None));;
      present ← has_key cleanup_done;
      (if (present : bool) then skip else assign (set_cleanup_done false));;
      current ← read_key "uploaded_file_object" uploaded_file_object;
      match current, file_uploader w with
      | Some _, None =>
          emit (st_warning "File is loaded. To upload a new file, clear the current one.")
      | _, _ => skip
      end;;
      match file_uploader w with
      | Some uploaded_file_input =>
          if process_clicked w
          then process_document_clicked client uploaded_file_input
          else skip
      | None => skip
      end;;
      manual_delete client w;;
      chat_with_document client (chat_input w)
  end.

(** One user interaction: the script runs; if it calls [st.rerun()], it runs
    once more with the widgets at rest. *)
Definition script_run (w : Widgets) : Py () :=
  try_except (main w) is_RerunException (λ _, main (after_rerun w)).

End WithRemote.
End app.

(** ** document_analyzer_app.py *)

Module document_analyzer_app.
Section WithRemote.

Variable remote : Remote.

Definition GEMINI_API_KEY_not_found : string :=
  "🛑 GEMINI_API_KEY not found in Streamlit secrets. " +:+
  "Please create a .streamlit/secrets.toml file and add your key.".

(** The client is kept in [st.session_state]; in the [except KeyError] the
    function returns [None] at once (the handler yields [None] here and the
    [match] returns). *)
Definition initialize_client : Py (option Client) :=
  present ← has_key client;
  if (present : bool) then read_key "client" client
  else
    api_key ← try_except
      (api_key ← st_secrets "GEMINI_API_KEY"; mret (Some api_key))
      except_KeyError
      (λ _, assign (set_client_error GEMINI_API_KEY_not_found);;
            assign (set_client None);;
            mret None);
    match api_key with
    | None => mret None
    | Some api_key =>
        try_except
          (c ← genai_Client_new remote api_key;
           assign (set_client (Some c)))
          except_Exception
          (λ e, assign (set_client_error (exc_str e));;
                assign (set_client None));;
        read_key "client" client
    end.

Definition upload_document_body (_client : Client)
    (uploaded_file_obj : UploadedFile.t) : Py (option types.File) :=
  let file_name := UploadedFile.name uploaded_file_obj in
  mkdir_exist_ok temp_dir;;
  let temp_file_path := temp_file_path file_name in
  open_wb_write temp_file_path (UploadedFile.getbuffer uploaded_file_obj);;
  emit (st_info ("Uploading file: " +:+ file_name +:+ " to Google File API..."));;
  try_finally
    (try_except
       (uploaded_file ← client_files_upload remote _client temp_file_path;
        emit (st_success ("File uploaded successfully! Name: "
                          +:+ types.name uploaded_file));;
        mret (Some uploaded_file))
       except_Exception
       (λ e, emit (st_error ("Error during file upload: " +:+ exc_str e));;
             mret None))
    (os_remove_file temp_file_path;;
     entries ← os_listdir temp_dir;
     match entries with
     | [] => os_rmdir_dir temp_dir
     | _ :: _ => skip
     end).

Definition upload_document (_client : Client)
    (uploaded_file_obj : UploadedFile.t) : Py (option types.File) :=
  st_cache_resource cache_upload_document with_cache_upload_document
    elements_upload_document with_elements_upload_document
    (UploadedFile.name uploaded_file_obj, UploadedFile.getbuffer uploaded_file_obj)
    (upload_document_body _client uploaded_file_obj).

Definition process_document (client : Client) (uploaded_file : types.File)
    (prompt : string) : Py (option string) :=
  let contents := (uploaded_file, prompt) in
  try_except
    (client_models_generate_content remote client "gemini-2.5-flash" contents)
    except_Exception
    (λ e, emit (st_error ("Error during content generation: " +:+ exc_str e));;
          mret (Some "Failed to get response from Gemini.")).

Definition delete_uploaded_file_body (_client : Client)
    (uploaded_file : types.File) : Py () :=
  try_except
    (client_files_delete remote _client (types.name uploaded_file);;
     emit (st_toast ("Clean up complete. File " +:+ types.name uploaded_file
                     +:+ " deleted.")))
    except_Exception
    (λ e, emit (st_warning ("Failed to delete file " +:+ types.name uploaded_file
                            +:+ ". Error: " +:+ exc_str e))).

(** [@st.cache_resource def delete_uploaded_file(_client, uploaded_file)]:
    here the decorator is still on the function.  The key is the hash of
    [uploaded_file], the whole object. *)
Definition delete_uploaded_file (_client : Client) (uploaded_file : types.File)
    : Py () :=
  st_cache_resource cache_delete_uploaded_file with_cache_delete_uploaded_file
    elements_delete_uploaded_file with_elements_delete_uploaded_file
    uploaded_file
    (delete_uploaded_file_body _client uploaded_file).

Definition chat_with_document (client : Client) (prompt : option string)
    : Py () :=
  rt ← get_runtime;
  match uploaded_file_object (session_state rt) with
  | None | Some None =>
      emit (st_info "Upload a document in the sidebar to begin chatting.")
  | Some (Some file_obj) =>
      present ← has_key messages;
      (if (present : bool) then skip
       else assign (set_messages []);;
            ms ← read_key "messages" messages;
            assign (set_messages (ms ++ [greeting])));;
      ms ← read_key "messages" messages;
      for_each ms (λ message, emit (st_chat_message (role message) (content message)));;
      match prompt with
      | None | Some "" => skip
      | Some prompt =>
          ms ← read_key "messages" messages;
          assign (set_messages (ms ++ [{| role := "user"; content := Some prompt |}]));;
          emit (st_chat_message "user" (Some prompt));;
          response ← process_document client file_obj prompt;
          emit (st_chat_message "assistant" response);;
          ms ← read_key "messages" messages;
          assign (set_messages (ms ++ [{| role := "assistant"; content := response |}]))
      end
  end.

Definition process_document_clicked (client : Client)
    (uploaded_file_input : UploadedFile.t) : Py () :=
  current ← read_key "uploaded_file_object" uploaded_file_object;
  match current with
  | Some current => delete_uploaded_file client current
  | None => skip
  end;;
  file_obj ← upload_document client uploaded_file_input;
  match file_obj with
  | Some file_obj =>
      assign (set_uploaded_file_object (Some file_obj));;
      assign (set_messages []);;
      assign (set_cleanup_done false);;
      st_rerun
  | None => skip
  end.

Definition manual_delete (client : Client) (w : Widgets) : Py () :=
  current ← read_key "uploaded_file_object" uploaded_file_object;
  match current with
  | Some current =>
      done ← read_key "cleanup_done" cleanup_done;
      if negb (done : bool) then
        if delete_clicked w then
          delete_uploaded_file client current;;
          assign (set_uploaded_file_object None);;
          assign (set_cleanup_done true);;
          assign (set_messages []);;
          st_rerun
        else skip
      else skip
  | None => skip
  end.

Definition main (w : Widgets) : Py () :=
  client ← initialize_client;
  match client with
  | None =>
      emit (st_error "🛑 Gemini Client failed to initialize. Please check your API key setup.");;
      rt ← get_runtime;
      match client_error (session_state rt) with
      | Some client_error => emit (st_code client_error)
      | None => skip
      end
  | Some client =>
      present ← has_key uploaded_file_object;
      (if (present : bool) then skip else assign (set_uploaded_file_object None));;
      present ← has_key cleanup_done;
      (if (present : bool) then skip else assign (set_cleanup_done false));;
      current ← read_key "uploaded_file_object" uploaded_file_object;
      match current, file_uploader w with
      | Some _, None =>
          emit (st_warning "File is loaded. To upload a new file, clear the current one.")
      | _, _ => skip
      end;;
      match file_uploader w with
      | Some uploaded_file_input =>
          if process_clicked w
          then process_document_clicked client uploaded_file_input
          else skip
      | None => skip
      end;;
      manual_delete client w;;
      chat_with_document client (chat_input w)
  end.

Definition script_run (w : Widgets) : Py () :=
  try_except (main w) is_RerunException (λ _, main (after_rerun w)).

End WithRemote.
End document_analyzer_app.
(** * Vocabulary of the statements *)

(** The status element [delete_uploaded_file] shows for a reply of
    [files.delete]. *)
Definition delete_report (f : types.File) (r : Reply ()) : Event :=
  match r with
  | Ok _ => st_toast ("Clean up complete. File " +:+ types.name f +:+ " deleted.")
  | Err msg =>
      st_warning ("Failed to delete file " +:+ types.name f +:+ ". Error: " +:+ msg)
  end.

(** What [upload_document] returns and shows for a reply of [files.upload]. *)
Definition upload_result (r : Reply types.File) : option types.File :=
  match r with Ok f => Some f | Err _ => None end.

Definition upload_report (r : Reply types.File) : list Event :=
  match r with
  | Ok _ => []
  | Err msg => [st_error ("Error during file upload: " +:+ msg)]
  end.

(** The chat history as [chat_with_document] renders it. *)
Definition rendered (ms : list Message) : list Event :=
  (λ m, st_chat_message (role m) (content m)) <$> ms.

(** Selections from a trace. *)
Definition is_files_delete (e : Event) : bool :=
  match e with files_delete _ => true | _ => false end.

Definition is_genai_Client (e : Event) : bool :=
  match e with genai_Client _ => true | _ => false end.

Definition is_st_chat_message (e : Event) : bool :=
  match e with st_chat_message _ _ => true | _ => false end.


(** The events after the first [n]. *)
Definition since (n : nat) (t : list Event) : list Event := drop n t.

(** ** Concrete inputs *)

Definition the_client : Client := {| client_id := 1 |}.

Definition secrets_ok : gmap string string := {[ "GEMINI_API_KEY" := "AIza-key" ]}.

Definition secrets_placeholder : gmap string string :=
  {[ "GEMINI_API_KEY" := "YOUR_ACTUAL_API_KEY" ]}.

(** A service that answers every call; an uploaded file is named after the
    path it came from. *)
Definition service_up : Remote :=
  {| on_Client := λ _ _, Ok the_client;
     on_upload := λ _ _ path, Ok {| types.name := "files/" +:+ path |};
     on_delete := λ _ _ _, Ok ();
     on_generate := λ _ _ _ _, Ok (Some "T1") |}.

(** A service whose file store and model are down. *)
Definition service_down : Remote :=
  {| on_Client := λ _ _, Ok the_client;
     on_upload := λ _ _ _, Err "503";
     on_delete := λ _ _ _, Err "503";
     on_generate := λ _ _ _ _, Err "503" |}.

(** A service that rejects one document and fails every deletion. *)
Definition service_flaky : Remote :=
  {| on_Client := λ _ _, Ok the_client;
     on_upload := λ _ _ path,
       if bool_decide (path = "temp_uploads/b.pdf") then Err "400"
       else Ok {| types.name := "files/" +:+ path |};
     on_delete := λ _ _ _, Err "503";
     on_generate := λ _ _ _ _, Ok (Some "T1") |}.

Definition doc (name data : string) : UploadedFile.t :=
  {| UploadedFile.name := name; UploadedFile.getbuffer := data |}.

(** The user picks [uf] and clicks "Process Document". *)
Definition click_process (uf : UploadedFile.t) : Widgets :=
  {| file_uploader := Some uf; process_clicked := true;
     delete_clicked := false; chat_input := None |}.

(** The user submits [prompt] in the chat box. *)
Definition ask (uf : UploadedFile.t) (prompt : string) : Widgets :=
  {| file_uploader := Some uf; process_clicked := false;
     delete_clicked := false; chat_input := Some prompt |}.

(** The SDK calls in a trace. *)
Definition is_sdk_call (e : Event) : bool :=
  match e with
  | genai_Client _ | files_upload _ | files_delete _ | generate_content _ _ => true
  | _ => false
  end.

(** Three clicks on "Process Document" in one session of
    [document_analyzer_app.py]: a.pdf is accepted, b.pdf is rejected, then
    c.pdf. *)
Definition single_file_a : Runtime :=
  snd (document_analyzer_app.script_run service_flaky
         (click_process (doc "a.pdf" "A")) (new_process secrets_ok)).
Definition single_file_b : Runtime :=
  snd (document_analyzer_app.script_run service_flaky
         (click_process (doc "b.pdf" "B")) single_file_a).
Definition single_file_c : Runtime :=
  snd (document_analyzer_app.script_run service_flaky
         (click_process (doc "c.pdf" "C")) single_file_b).

(** The same clicks in [app.py]. *)
Definition split_a : Runtime :=
  snd (app.script_run service_flaky
         (click_process (doc "a.pdf" "A")) (new_process secrets_ok)).
Definition split_b : Runtime :=
  snd (app.script_run service_flaky
         (click_process (doc "b.pdf" "B")) split_a).
Definition split_c : Runtime :=
  snd (app.script_run service_flaky
         (click_process (doc "c.pdf" "C")) split_b).

(** The scenario of the specification in [app.py]: report.pdf is uploaded,
    "summarize" is asked, report2.pdf is uploaded. *)
Definition scenario_1 : Runtime :=
  snd (app.script_run service_up
         (click_process (doc "report.pdf" "one")) (new_process secrets_ok)).
Definition scenario_2 : Runtime :=
  snd (app.script_run service_up
         (ask (doc "report.pdf" "one") "summarize") scenario_1).
Definition scenario_3 : Runtime :=
  snd (app.script_run service_up
         (click_process (doc "report2.pdf" "two")) scenario_2).

(** Calls of [engine.initialize_client] one after the other in one process;
    each may come from another session and find other secrets. *)
Fixpoint invocations (remote : Remote)
    (envs : list (gmap string string * SessionState)) (rt : Runtime)
    : list (Outcome (option Client * option string)) * Runtime :=
  match envs with
  | [] => ([], rt)
  | (sec, s) :: envs' =>
      let '(o, rt1) :=
        engine.initialize_client remote
          (with_session_state s (with_secrets sec rt)) in
      let '(os, rt2) := invocations remote envs' rt1 in
      (o :: os, rt2)
  end.

(** The session invariant: once the manual clean-up has run, no handle is
    held. *)
Definition cleanup_invariant (s : SessionState) : Prop :=
  cleanup_done s = Some true -> uploaded_file_object s = Some None.

(** The ways the script changes [st.session_state]: the two keys are
    initialised, the history is assigned, a new handle is stored (lines 104
    to 107), the handle is cleared by hand (lines 120 to 122). *)
Inductive session_change : SessionState -> SessionState -> Prop :=
| change_none s : session_change s s
| change_trans s1 s2 s3 :
    session_change s1 s2 -> session_change s2 s3 -> session_change s1 s3
| change_init_file s :
    uploaded_file_object s = None ->
    session_change s (set_uploaded_file_object None s)
| change_init_flag s :
    cleanup_done s = None -> session_change s (set_cleanup_done false s)
| change_messages s ms : session_change s (set_messages ms s)
| change_stored s f :
    session_change s
      (set_cleanup_done false
         (set_messages [] (set_uploaded_file_object (Some f) s)))
| change_deleted s :
    session_change s
      (set_messages []
         (set_cleanup_done true (set_uploaded_file_object None s))).

(** A held handle comes with the key [messages]. *)
Definition history_with_handle (s : SessionState) : Prop :=
  (∃ f, uploaded_file_object s = Some (Some f)) -> is_Some (messages s).

(** [m] changes the session only in those ways, whatever its outcome. *)
Definition changes {A} (m : Py A) : Prop :=
  ∀ rt, session_change (session_state rt) (session_state (snd (m rt))).

(** ** Vocabulary of the further properties *)

(** The exception of [st.rerun()]. *)
Definition Rerun : PyExc := {| exc_class := RerunException; exc_str := "" |}.

(** Lines 74 to 77 of [app.py], as a change of the session state. *)
Definition init_keys (s : SessionState) : SessionState :=
  let s1 := match uploaded_file_object s with
            | Some _ => s
            | None => set_uploaded_file_object None s
            end in
  match cleanup_done s1 with
  | Some _ => s1
  | None => set_cleanup_done false s1
  end.

(** What [engine.initialize_client] has stored, if anything, is a pair it can
    return: a client, or no client and a message. *)
Definition client_cache_ok (rt : Runtime) : Prop :=
  ∀ r, cache_initialize_client rt !! () = Some r -> is_Some r.1 ∨ is_Some r.2.

(** The rest of [app.main] once the client is there and the two keys are
    initialised (lines 79 to 127), as written in [app.main]. *)
Definition sidebar_and_chat (remote : Remote) (c : Client) (w : Widgets) : Py () :=
  current ← read_key "uploaded_file_object" uploaded_file_object;
  match current, file_uploader w with
  | Some _, None =>
      emit (st_warning "File is loaded. To upload a new file, clear the current one.")
  | _, _ => skip
  end;;
  match file_uploader w with
  | Some uploaded_file_input =>
      if process_clicked w
      then app.process_document_clicked remote c uploaded_file_input
      else skip
  | None => skip
  end;;
  app.manual_delete remote c w;;
  app.chat_with_document remote c (chat_input w).

(** The user clicks "Manually Delete File from API". *)
Definition click_delete (selected : option UploadedFile.t) : Widgets :=
  {| file_uploader := selected; process_clicked := false;
     delete_clicked := true; chat_input := None |}.

(** The warning of line 91, shown when a handle is held and no file is
    selected. *)
Definition loaded_warning (selected : option UploadedFile.t) : list Event :=
  match selected with
  | Some _ => []
  | None => [st_warning "File is loaded. To upload a new file, clear the current one."]
  end.

(** What [process_document] shows for a reply of [generate_content]. *)
Definition generation_report (r : Reply (option string)) : list Event :=
  match r with
  | Ok _ => []
  | Err msg => [st_error ("Error during content generation: " +:+ msg)]
  end.

(** What [initialize_client] of [engine.py] returns for a reply of
    [genai.Client]. *)
Definition client_result (r : Reply Client) : option Client * option string :=
  match r with
  | Ok c => (Some c, None)
  | Err msg => (None, Some ("Error initializing Gemini Client: " +:+ msg))
  end.

(** What [upload_document] of [document_analyzer_app.py] shows for a reply of
    [files.upload]. *)
Definition single_file_upload_report (r : Reply types.File) : list Event :=
  match r with
  | Ok f => [st_success ("File uploaded successfully! Name: " +:+ types.name f)]
  | Err msg => [st_error ("Error during file upload: " +:+ msg)]
  end.

(** A service whose client constructor fails. *)
Definition service_no_client : Remote :=
  {| on_Client := λ _ _, Err "invalid transport";
     on_upload := λ _ _ path, Ok {| types.name := "files/" +:+ path |};
     on_delete := λ _ _ _, Ok ();
     on_generate := λ _ _ _ _, Ok (Some "T1") |}.

(** What [process_document] returns for a reply of [generate_content]. *)
Definition answer (r : Reply (option string)) : option string :=
  match r with
  | Ok text => text
  | Err _ => Some "Failed to get response from Gemini."
  end.

(** The [finally] block of [upload_document] (lines 61 to 63 of
    [engine.py]), as written there. *)
Definition remove_local_copy (path : string) : Py () :=
  os_remove_file path;;
  entries ← os_listdir temp_dir;
  match entries with
  | [] => os_rmdir_dir temp_dir
  | _ :: _ => skip
  end.


(** What a raising call of the operating system becomes. *)
Definition os_error {A} (msg : string) : Outcome A :=
  Raises {| exc_class := OSError; exc_str := msg |}.

(** A host whose file system refuses every [open] (a read-only working
    directory, or a file name that names no file, as "sub/a.pdf" does when
    [temp_uploads/sub] does not exist); the directory is empty. *)
Definition host_refusing_open : Host :=
  {| on_mkdir := λ _ _, Ok ();
     on_open := λ _ _ _, Err "[Errno 2] No such file or directory";
     on_remove := λ _ _, Ok ();
     on_listdir := λ _ _, Ok [];
     on_rmdir := λ _ _, Ok () |}.



(** [scenario_2] followed by a click on "Manually Delete File from API"
    while the file store is down. *)
Definition scenario_deleted : Runtime :=
  snd (app.script_run service_down (click_delete None) scenario_2).

(** Then report2.pdf is uploaded. *)
Definition scenario_reloaded : Runtime :=
  snd (app.script_run service_up
         (click_process (doc "report2.pdf" "two")) scenario_deleted).

(** The handles in the table of [upload_document] come with no element to
    show again: a successful upload shows nothing. *)
Definition stored_handles_show_nothing (rt : Runtime) : Prop :=
  ∀ key h,
    cache_upload_document rt !! key = Some (Some h) ->
    default [] (elements_upload_document rt !! key) = [].

(** [m] keeps that, whatever its outcome. *)
Definition keeps {A} (m : Py A) : Prop :=
  ∀ rt, stored_handles_show_nothing rt ->
        stored_handles_show_nothing (snd (m rt)).
(** * Properties *)

(** ** The monad's equations *)

Lemma bind_Returns {A B} (m : Py A) (k : A -> Py B) rt a rt' :
  m rt = (Returns a, rt') -> (m ≫= k) rt = k a rt'.
Proof. intros E. unfold mbind, Py_bind. by rewrite E. Qed.

Lemma bind_Raises_eq {A B} (m : Py A) (k : A -> Py B) rt e rt' :
  m rt = (Raises e, rt') -> (m ≫= k) rt = (Raises e, rt').
Proof. intros E. unfold mbind, Py_bind. by rewrite E. Qed.

(** Logging changes the trace and nothing else. *)
Lemma log_all_eq es rt :
  log_all es rt =
  {| trace := trace rt ++ es; secrets := secrets rt;
     secrets_toml := secrets_toml rt; host := host rt;
     cache_initialize_client := cache_initialize_client rt;
     cache_upload_document := cache_upload_document rt;
     elements_upload_document := elements_upload_document rt;
     cache_delete_uploaded_file := cache_delete_uploaded_file rt;
     elements_delete_uploaded_file := elements_delete_uploaded_file rt;
     session_state := session_state rt |}.
Proof.
  revert rt. induction es as [|e es IH]; intros rt; simpl.
  - rewrite app_nil_r. by destruct rt.
  - rewrite IH. simpl. by rewrite <- app_assoc.
Qed.

Lemma trace_log_all es rt : trace (log_all es rt) = trace rt ++ es.
Proof. by rewrite log_all_eq. Qed.

Lemma session_state_log_all es rt :
  session_state (log_all es rt) = session_state rt.
Proof. by rewrite log_all_eq. Qed.

Lemma cache_initialize_client_log_all es rt :
  cache_initialize_client (log_all es rt) = cache_initialize_client rt.
Proof. by rewrite log_all_eq. Qed.

Lemma host_log_all es rt : host (log_all es rt) = host rt.
Proof. by rewrite log_all_eq. Qed.

Lemma log_all_app es es' rt : log_all (es ++ es') rt = log_all es' (log_all es rt).
Proof. apply foldl_app. Qed.

Lemma for_each_emit {A} (f : A -> Event) (l : list A) rt :
  for_each l (λ x, emit (f x)) rt = (Returns (), log_all (f <$> l) rt).
Proof.
  revert rt. induction l as [|x l IH]; intros rt; simpl; [done|].
  unfold mbind, Py_bind, emit. by rewrite IH.
Qed.

Lemma for_each_log {A} (f : A -> Event) (l : list A) rt :
  for_each l (λ x rt, (Returns (), log (f x) rt)) rt
  = (Returns (), log_all (f <$> l) rt).
Proof. apply (for_each_emit f). Qed.

(** What is shown again is made of elements: no call is among it. *)
Lemma shown_show el : shown (show el) = Some el.
Proof. by destruct el. Qed.

Lemma omap_shown_show (els : list Element) : omap shown (show <$> els) = els.
Proof.
  induction els as [|el els IH]; csimpl; [done|].
  rewrite shown_show. simpl. by rewrite IH.
Qed.

Lemma show_no_files_delete (els : list Element) : filter is_files_delete (show <$> els) = [].
Proof. induction els as [|[] els IH]; simpl; auto. Qed.

Lemma show_no_sdk_call (els : list Element) : filter is_sdk_call (show <$> els) = [].
Proof. induction els as [|[] els IH]; simpl; auto. Qed.

Lemma show_no_genai_Client (els : list Element) : filter is_genai_Client (show <$> els) = [].
Proof. induction els as [|[] els IH]; simpl; auto. Qed.

Ltac py_unfold :=
  unfold mbind, Py_bind, mret, Py_ret, try_except, try_finally, emit, raise,
    skip, get_runtime, assign, has_key, read_key, st_rerun,
    genai_Client_new, client_files_upload, client_files_delete,
    client_models_generate_content, sdk_call in *.

Ltac os_unfold :=
  unfold mkdir_exist_ok, open_wb_write, os_remove_file, os_listdir,
    os_rmdir_dir, os_call, os_query in *.

(** ** engine.py: what each function does, as an equation *)

Section EngineFacts.

Variable remote : Remote.

Lemma delete_uploaded_file_eq c f rt :
  engine.delete_uploaded_file remote c f rt =
  (Returns (),
   log (delete_report f (on_delete remote (trace rt) c (types.name f)))
       (log (files_delete (types.name f)) rt)).
Proof.
  unfold engine.delete_uploaded_file, delete_report. py_unfold.
  by destruct (on_delete remote (trace rt) c (types.name f)).
Qed.

Lemma process_document_eq c f prompt rt :
  engine.process_document remote c f prompt rt =
  let call := generate_content "gemini-2.5-flash" (f, prompt) in
  match on_generate remote (trace rt) c "gemini-2.5-flash" (f, prompt) with
  | Ok text => (Returns text, log call rt)
  | Err msg =>
      (Returns (Some "Failed to get response from Gemini."),
       log (st_error ("Error during content generation: " +:+ msg)) (log call rt))
  end.
Proof.
  unfold engine.process_document. py_unfold.
  by destruct (on_generate remote (trace rt) c "gemini-2.5-flash" (f, prompt)).
Qed.

(** The [finally] block: [os.remove] is called; if it returns the directory
    is listed and, when the listing is empty, [os.rmdir] is called.  What
    any of the three raises leaves the block. *)
Lemma remove_local_copy_eq path rt :
  remove_local_copy path rt =
  let rt1 := log (os_remove path) rt in
  match on_remove (host rt) (trace rt) path with
  | Err msg => (Raises {| exc_class := OSError; exc_str := msg |}, rt1)
  | Ok _ =>
      match on_listdir (host rt) (trace rt1) temp_dir with
      | Err msg => (Raises {| exc_class := OSError; exc_str := msg |}, rt1)
      | Ok (_ :: _) => (Returns (), rt1)
      | Ok [] =>
          match on_rmdir (host rt) (trace rt1) temp_dir with
          | Ok _ => (Returns (), log (os_rmdir temp_dir) rt1)
          | Err msg =>
              (Raises {| exc_class := OSError; exc_str := msg |},
               log (os_rmdir temp_dir) rt1)
          end
      end
  end.
Proof.
  unfold remove_local_copy. os_unfold. py_unfold. simpl.
  destruct (on_remove (host rt) (trace rt) path) as [[]|msg]; simpl; [|done].
  destruct (on_listdir (host rt) (trace rt ++ [os_remove path]) temp_dir)
    as [[|x l]|msg]; simpl; try done.
  by destruct (on_rmdir (host rt) (trace rt ++ [os_remove path]) temp_dir)
    as [[]|msg].
Qed.

(** The block changes the trace only, by one or two calls, and raises
    nothing but what the host raised. *)
Lemma remove_local_copy_run path rt :
  ∃ o new,
    remove_local_copy path rt = (o, log_all (os_remove path :: new) rt)
    ∧ (new = [] ∨ new = [os_rmdir temp_dir])
    ∧ ∀ e, o = Raises e -> exc_class e = OSError.
Proof.
  rewrite remove_local_copy_eq. simpl.
  destruct (on_remove (host rt) (trace rt) path) as [[]|msg].
  2: { eexists _, []. split; [reflexivity|]. split; [auto|]. by intros e [= <-]. }
  destruct (on_listdir (host rt) (trace rt ++ [os_remove path]) temp_dir)
    as [[|x l]|msg].
  - destruct (on_rmdir (host rt) (trace rt ++ [os_remove path]) temp_dir)
      as [[]|msg]; eexists _, [os_rmdir temp_dir]; (split; [reflexivity|]);
      (split; [auto|]); [done | by intros e [= <-]].
  - eexists _, []. split; [reflexivity|]. split; [auto|]. done.
  - eexists _, []. split; [reflexivity|]. split; [auto|]. by intros e [= <-].
Qed.

(** The body of [upload_document]: [mkdir], then the write, then the upload
    inside the [try], whose error is shown and turned into [None], then the
    [finally] block. *)
Lemma upload_document_body_eq c uf rt :
  let path := temp_file_path (UploadedFile.name uf) in
  let data := UploadedFile.getbuffer uf in
  engine.upload_document_body remote c uf rt =
  match on_mkdir (host rt) (trace rt) temp_dir with
  | Err msg => (Raises {| exc_class := OSError; exc_str := msg |}, rt)
  | Ok _ =>
      match on_open (host rt) (trace rt) path data with
      | Err msg =>
          (Raises {| exc_class := OSError; exc_str := msg |},
           log (open_wb path data) rt)
      | Ok _ =>
          let r := on_upload remote (trace rt ++ [open_wb path data]) c path in
          match remove_local_copy path
                  (log_all (open_wb path data :: files_upload path
                              :: upload_report r) rt) with
          | (Returns _, rt') => (Returns (upload_result r), rt')
          | (Raises e, rt') => (Raises e, rt')
          end
      end
  end.
Proof.
  intros path data.
  unfold engine.upload_document_body. fold path. fold data.
  fold (remove_local_copy path).
  unfold mkdir_exist_ok, open_wb_write, os_call, os_query. py_unfold.
  destruct (on_mkdir (host rt) (trace rt) temp_dir) as [[]|msg]; [|done].
  destruct (on_open (host rt) (trace rt) path data) as [[]|msg]; [|done].
  simpl.
  destruct (on_upload remote (trace rt ++ [open_wb path data]) c path)
    as [f|msg]; simpl;
    by destruct (remove_local_copy path _) as [[[]|e] rt'].
Qed.

(** A run of the body: the calls it adds, none of them [files.delete]; it
    leaves everything but the trace as it was and raises nothing but what
    the host raised. *)
Lemma upload_document_body_run c uf rt :
  ∃ o new,
    engine.upload_document_body remote c uf rt = (o, log_all new rt)
    ∧ filter is_files_delete new = []
    ∧ ∀ e, o = Raises e -> exc_class e = OSError.
Proof.
  rewrite upload_document_body_eq. cbv zeta.
  destruct (on_mkdir (host rt) (trace rt) temp_dir) as [[]|msg].
  2: { eexists _, []. split; [reflexivity|]. split; [done|]. by intros e [= <-]. }
  destruct (on_open (host rt) (trace rt) _ _) as [[]|msg].
  2: { eexists _, [_]. split; [reflexivity|]. split; [done|]. by intros e [= <-]. }
  match goal with
  | |- context [remove_local_copy ?p ?x] =>
      destruct (remove_local_copy_run p x) as (o & new & E & Hnew & Ho);
      rewrite E
  end.
  rewrite <- log_all_app.
  assert (filter is_files_delete
            ((open_wb (temp_file_path (UploadedFile.name uf))
                (UploadedFile.getbuffer uf)
              :: files_upload (temp_file_path (UploadedFile.name uf))
              :: upload_report
                   (on_upload remote
                      (trace rt ++ [open_wb (temp_file_path (UploadedFile.name uf))
                                      (UploadedFile.getbuffer uf)]) c
                      (temp_file_path (UploadedFile.name uf))))
             ++ os_remove (temp_file_path (UploadedFile.name uf)) :: new) = [])
    as Hf.
  { rewrite filter_app.
    destruct (on_upload remote _ c _); destruct Hnew as [-> | ->]; done. }
  destruct o as [[]|e]; eexists _, _; (split; [reflexivity|]);
    (split; [exact Hf|]); [done|].
  intros e' [= <-]. by apply Ho.
Qed.

(** [engine.initialize_client], case by case. *)
Lemma initialize_client_body_eq rt :
  engine.initialize_client_body remote rt =
  match secrets rt !! "GEMINI_API_KEY" with
  | None =>
      if secrets_toml rt
      then (Returns (None, Some engine.KEY_not_found), rt)
      else (Raises {| exc_class := FileNotFoundError;
                      exc_str := "No secrets found." |}, rt)
  | Some k =>
      if bool_decide (k ∈ ["YOUR_ACTUAL_API_KEY"; ""])
      then (Returns (None, Some engine.KEY_not_found), rt)
      else
        match on_Client remote (trace rt) k with
        | Ok c => (Returns (Some c, None), log (genai_Client k) rt)
        | Err msg =>
            (Returns (None, Some ("Error initializing Gemini Client: " +:+ msg)),
             log (genai_Client k) rt)
        end
  end.
Proof.
  unfold engine.initialize_client_body, st_secrets, except_KeyError,
    except_Exception. py_unfold.
  destruct (secrets rt !! "GEMINI_API_KEY") as [k|]; simpl.
  - case_bool_decide; simpl; [done|].
    by destruct (on_Client remote (trace rt) k).
  - by destruct (secrets_toml rt).
Qed.

(** A run of the body of [initialize_client]: it builds at most one client,
    shows no element and changes nothing but the trace; it raises only when
    there is no secrets file. *)
Lemma initialize_client_body_run rt :
  ∃ o new,
    engine.initialize_client_body remote rt = (o, log_all new rt)
    ∧ (List.length (filter is_genai_Client new) ≤ 1)%nat
    ∧ omap shown new = []
    ∧ (∀ r, o = Returns r -> is_Some r.1 ∨ is_Some r.2)
    ∧ ∀ e, o = Raises e ->
        new = [] ∧ exc_class e = FileNotFoundError
        ∧ secrets rt !! "GEMINI_API_KEY" = None ∧ secrets_toml rt = false.
Proof.
  rewrite initialize_client_body_eq.
  destruct (secrets rt !! "GEMINI_API_KEY") as [k|]; simpl;
    [case_bool_decide; [|destruct (on_Client remote (trace rt) k) as [c|msg]]
    |destruct (secrets_toml rt)].
  2,3: eexists _, [genai_Client k].
  1,4,5: eexists _, [].
  all: split; [reflexivity|]; simpl.
  all: repeat split; auto with lia; try done.
  all: try (intros ? [= <-]; simpl; by eauto).
  by injection H as <-.
Qed.

Lemma initialize_client_hit rt r :
  cache_initialize_client rt !! () = Some r ->
  engine.initialize_client remote rt = (Returns r, rt).
Proof.
  intros E. unfold engine.initialize_client, st_cache_resource. by rewrite E.
Qed.

(** Any call of [initialize_client]: it builds at most one client and leaves
    the session alone; what it returns is in the table afterwards; it raises
    only with no stored result and no secrets file, and then changes
    nothing. *)
Lemma initialize_client_run rt :
  ∃ o new rt',
    engine.initialize_client remote rt = (o, rt')
    ∧ trace rt' = trace rt ++ new
    ∧ (List.length (filter is_genai_Client new) ≤ 1)%nat
    ∧ session_state rt' = session_state rt
    ∧ (∀ r, o = Returns r -> cache_initialize_client rt' !! () = Some r)
    ∧ ∀ e, o = Raises e ->
        rt' = rt ∧ exc_class e = FileNotFoundError
        ∧ cache_initialize_client rt !! () = None
        ∧ secrets rt !! "GEMINI_API_KEY" = None ∧ secrets_toml rt = false.
Proof.
  destruct (cache_initialize_client rt !! ()) as [r|] eqn:E.
  - exists (Returns r), [], rt. rewrite (initialize_client_hit _ _ E), app_nil_r.
    simpl. split_and!; auto with lia; try done. by intros ? [= <-].
  - destruct (initialize_client_body_run rt) as (o & new & Eb & Hn & _ & _ & He).
    unfold engine.initialize_client, st_cache_resource. rewrite E, Eb.
    destruct o as [r|e]; eexists _, new, _; (split; [reflexivity|]); simpl;
      rewrite ?trace_log_all, ?session_state_log_all.
    + split_and!; auto; [|done].
      intros r' [= <-]. apply lookup_insert_eq.
    + split_and!; auto; [done|]. intros e' [= <-].
      destruct (He e eq_refl) as (-> & ? & ? & ?). auto.
Qed.

(** Any call of [upload_document]: a stored result comes back, with the
    elements of the stored run shown again; else the body runs and, unless
    it raises, its result and the elements it showed are stored. *)
Lemma upload_document_eq c uf rt :
  engine.upload_document remote c uf rt =
  let key := (UploadedFile.name uf, UploadedFile.getbuffer uf) in
  match cache_upload_document rt !! key with
  | Some v =>
      (Returns v,
       log_all (show <$> default [] (elements_upload_document rt !! key)) rt)
  | None =>
      match engine.upload_document_body remote c uf rt with
      | (Returns v, rt') =>
          (Returns v,
           with_elements_upload_document
             (<[key := omap shown (drop (List.length (trace rt)) (trace rt'))]>
                (elements_upload_document rt'))
             (with_cache_upload_document
                (<[key := v]> (cache_upload_document rt')) rt'))
      | (Raises e, rt') => (Raises e, rt')
      end
  end.
Proof. reflexivity. Qed.

(** Any call of [upload_document], whatever its outcome: it makes no
    [files.delete] call, leaves the session and the stored client alone, and
    raises nothing but what the host raised. *)
Lemma upload_document_run c uf rt :
  ∃ o new rt',
    engine.upload_document remote c uf rt = (o, rt')
    ∧ trace rt' = trace rt ++ new
    ∧ filter is_files_delete new = []
    ∧ session_state rt' = session_state rt
    ∧ cache_initialize_client rt' = cache_initialize_client rt
    ∧ ∀ e, o = Raises e -> exc_class e = OSError.
Proof.
  rewrite upload_document_eq. cbv zeta.
  destruct (cache_upload_document rt !! _) as [v|].
  - eexists _, _, _. split; [reflexivity|].
    rewrite trace_log_all, session_state_log_all,
      cache_initialize_client_log_all.
    split_and!; auto; [apply show_no_files_delete | done].
  - destruct (upload_document_body_run c uf rt) as (o & new & -> & Hf & Ho).
    destruct o as [v|e]; eexists _, new, _; (split; [reflexivity|]); simpl;
      rewrite ?trace_log_all, ?session_state_log_all,
        ?cache_initialize_client_log_all; split_and!; auto; done.
Qed.

Lemma upload_document_keeps_client c uf rt :
  cache_initialize_client (snd (engine.upload_document remote c uf rt))
  = cache_initialize_client rt.
Proof.
  by destruct (upload_document_run c uf rt) as (o & new & rt' & -> & _ & _ & _ & H & _).
Qed.

End EngineFacts.

(** ** app.py: the blocks of [main] *)

Lemma with_session_state_id rt : with_session_state (session_state rt) rt = rt.
Proof. by destruct rt. Qed.

Lemma set_messages_id s ms : messages s = Some ms -> set_messages ms s = s.
Proof. destruct s; simpl; by intros ->. Qed.

Section AppFacts.

Variable remote : Remote.

(** [chat_with_document] when a handle is held: the history (with the
    greeting if the key was absent) is rendered; a prompt is appended, sent
    with the handle, and the answer appended. *)
Lemma chat_with_document_eq c prompt rt f :
  uploaded_file_object (session_state rt) = Some (Some f) ->
  let s := session_state rt in
  let ms := default [greeting] (messages s) in
  let rt1 := log_all (rendered ms) (with_session_state (set_messages ms s) rt) in
  app.chat_with_document remote c prompt rt =
  match prompt with
  | None | Some "" => (Returns (), rt1)
  | Some p =>
      let user := {| role := "user"; content := Some p |} in
      let rt2 :=
        log (st_chat_message "user" (Some p))
          (with_session_state (set_messages (ms ++ [user]) s) rt1) in
      match engine.process_document remote c f p rt2 with
      | (Returns response, rt3) =>
          (Returns (),
           with_session_state
             (set_messages
                (ms ++ [user; {| role := "assistant"; content := response |}])
                (session_state rt3))
             (log (st_chat_message "assistant" response) rt3))
      | (Raises e, rt3) => (Raises e, rt3)
      end
  end.
Proof.
  intros Hf s ms rt1. subst rt1 ms s.
  unfold app.chat_with_document. py_unfold. rewrite Hf.
  destruct rt as [t sec st h c1 c2 e2 c3 e3 [o cd [ms|] cl ce]]; simpl in *;
    rewrite ?(for_each_log (λ m, st_chat_message (role m) (content m)));
    simpl.
  all: destruct prompt as [[|a p]|]; simpl; try reflexivity.
  all: rewrite ?session_state_log_all; simpl.
  all: rewrite !process_document_eq; simpl.
  all: rewrite ?trace_log_all; simpl.
  all: destruct (on_generate remote _ c _ _); simpl;
    rewrite ?session_state_log_all; simpl; by rewrite <- ?app_assoc.
Qed.

Lemma chat_with_document_no_file c prompt rt :
  uploaded_file_object (session_state rt) = None
  ∨ uploaded_file_object (session_state rt) = Some None ->
  app.chat_with_document remote c prompt rt =
  (Returns (),
   log (st_info "Upload a document in the sidebar to begin chatting.") rt).
Proof.
  unfold app.chat_with_document. py_unfold. by intros [-> | ->].
Qed.

(** The block under "Process Document": the handle held, if any, is deleted
    first; then the upload; a handle that comes back is stored, the history
    emptied, the flag lowered, and the script rerun. *)
Lemma process_document_clicked_eq c uf rt current :
  uploaded_file_object (session_state rt) = Some current ->
  app.process_document_clicked remote c uf rt =
  let rt1 :=
    match current with
    | Some h => snd (engine.delete_uploaded_file remote c h rt)
    | None => rt
    end in
  match engine.upload_document remote c uf rt1 with
  | (Returns (Some f), rt2) =>
      (Raises {| exc_class := RerunException; exc_str := "" |},
       with_session_state
         (set_cleanup_done false
            (set_messages [] (set_uploaded_file_object (Some f) (session_state rt2))))
         rt2)
  | (Returns None, rt2) => (Returns (), rt2)
  | (Raises e, rt2) => (Raises e, rt2)
  end.
Proof.
  intros Hc. unfold app.process_document_clicked. py_unfold. rewrite Hc.
  destruct current as [h|]; simpl.
  - rewrite delete_uploaded_file_eq. simpl.
    destruct (engine.upload_document remote c uf _) as [[[f|]|e] rt2]; done.
  - destruct (engine.upload_document remote c uf rt) as [[[f|]|e] rt2]; done.
Qed.

(** The block under "Manually Delete File from API". *)
Lemma manual_delete_eq c w rt current done :
  uploaded_file_object (session_state rt) = Some current ->
  cleanup_done (session_state rt) = Some done ->
  app.manual_delete remote c w rt =
  match current with
  | Some h =>
      if negb done && delete_clicked w then
        let rt1 := snd (engine.delete_uploaded_file remote c h rt) in
        (Raises {| exc_class := RerunException; exc_str := "" |},
         with_session_state
           (set_messages []
              (set_cleanup_done true
                 (set_uploaded_file_object None (session_state rt1))))
           rt1)
      else (Returns (), rt)
  | None => (Returns (), rt)
  end.
Proof.
  intros Hc Hd. unfold app.manual_delete. py_unfold. rewrite Hc.
  destruct current as [h|]; simpl; [|done]. rewrite Hd.
  destruct done, (delete_clicked w); simpl; try done.
  by rewrite delete_uploaded_file_eq.
Qed.

End AppFacts.

(** ** The session across a run of [main] *)

Lemma cleanup_invariant_change s s' :
  session_change s s' -> cleanup_invariant s -> cleanup_invariant s'.
Proof.
  unfold cleanup_invariant.
  induction 1 as [s|s1 s2 s3 _ IH1 _ IH2|s Hs|s Hs|s ms|s f|s]; simpl.
  - auto.
  - auto.
  - reflexivity.
  - intros _ [=].
  - auto.
  - intros _ [=].
  - reflexivity.
Qed.

Lemma changes_bind {A B} (m : Py A) (k : A -> Py B) :
  changes m -> (∀ a, changes (k a)) -> changes (m ≫= k).
Proof.
  intros Hm Hk rt. specialize (Hm rt). unfold mbind, Py_bind.
  destruct (m rt) as [[a|e] rt']; simpl in *; [|done].
  eapply change_trans; [exact Hm | apply Hk].
Qed.

Lemma changes_same {A} (m : Py A) :
  (∀ rt, session_state (snd (m rt)) = session_state rt) -> changes m.
Proof. intros H rt. rewrite H. apply change_none. Qed.

Lemma changes_try_except {A} (m : Py A) catches handler :
  changes m -> (∀ e, changes (handler e)) -> changes (try_except m catches handler).
Proof.
  intros Hm Hh rt. specialize (Hm rt). unfold try_except.
  destruct (m rt) as [[a|e] rt']; simpl in *; [done|].
  destruct (catches e); [|done].
  eapply change_trans; [exact Hm | apply Hh].
Qed.

Lemma changes_init {A B} (field : SessionState -> option A)
    (upd : SessionState -> SessionState) (k : () -> Py B) :
  (∀ s, field s = None -> session_change s (upd s)) ->
  changes (k ()) ->
  changes (has_key field ≫= λ present : bool,
             (if present then skip else assign upd) ≫= k).
Proof.
  intros Hupd Hk rt. py_unfold.
  destruct (field (session_state rt)) as [v|] eqn:E; simpl.
  - apply Hk.
  - eapply change_trans; [apply (Hupd _ E)|]. apply (Hk (with_session_state _ rt)).
Qed.

Lemma changes_skip : changes skip.
Proof. by apply changes_same. Qed.

Lemma changes_emit e : changes (emit e).
Proof. by apply changes_same. Qed.

Lemma changes_raise {A} c msg : changes (@raise A c msg).
Proof. by apply changes_same. Qed.

Lemma changes_read_key {A} key (field : SessionState -> option A) :
  changes (read_key key field).
Proof.
  apply changes_same. intros rt. unfold read_key.
  by destruct (field (session_state rt)).
Qed.

Lemma changes_has_key {A} (field : SessionState -> option A) :
  changes (has_key field).
Proof. by apply changes_same. Qed.

Lemma changes_assign_messages ms : changes (assign (set_messages ms)).
Proof. intros rt. apply change_messages. Qed.

Section MainChanges.

Variable remote : Remote.

Lemma changes_delete_uploaded_file c f :
  changes (engine.delete_uploaded_file remote c f).
Proof. apply changes_same. intros rt. by rewrite delete_uploaded_file_eq. Qed.

Lemma changes_process_document c f p :
  changes (engine.process_document remote c f p).
Proof.
  apply changes_same. intros rt. rewrite process_document_eq. simpl.
  by destruct (on_generate remote _ c _ _).
Qed.

Lemma changes_upload_document c uf : changes (engine.upload_document remote c uf).
Proof.
  apply changes_same. intros rt.
  destruct (upload_document_run remote c uf rt)
    as (o & new & rt' & -> & _ & _ & Hs & _).
  exact Hs.
Qed.

Lemma changes_initialize_client : changes (engine.initialize_client remote).
Proof.
  apply changes_same. intros rt.
  destruct (initialize_client_run remote rt)
    as (o & new & rt' & -> & _ & _ & Hs & _).
  exact Hs.
Qed.

Lemma changes_chat_with_document c prompt :
  changes (app.chat_with_document remote c prompt).
Proof.
  unfold app.chat_with_document.
  apply changes_bind; [by apply changes_same|]. intros rt0.
  destruct (uploaded_file_object (session_state rt0)) as [[f|]|];
    try apply changes_emit.
  apply changes_bind; [apply changes_has_key|]. intros present.
  apply changes_bind.
  { destruct present; [apply changes_skip|].
    apply changes_bind; [apply changes_assign_messages|]. intros _.
    apply changes_bind; [apply changes_read_key|]. intros ms.
    apply changes_assign_messages. }
  intros _. apply changes_bind; [apply changes_read_key|]. intros ms.
  apply changes_bind.
  { apply changes_same. intros rt. rewrite for_each_emit. simpl.
    apply session_state_log_all. }
  intros _. destruct prompt as [[|a p]|]; try apply changes_skip.
  apply changes_bind; [apply changes_read_key|]. intros ms'.
  apply changes_bind; [apply changes_assign_messages|]. intros _.
  apply changes_bind; [apply changes_emit|]. intros _.
  apply changes_bind; [apply changes_process_document|]. intros response.
  apply changes_bind; [apply changes_emit|]. intros _.
  apply changes_bind; [apply changes_read_key|]. intros ms''.
  apply changes_assign_messages.
Qed.

Lemma changes_process_document_clicked c uf :
  changes (app.process_document_clicked remote c uf).
Proof.
  unfold app.process_document_clicked.
  apply changes_bind; [apply changes_read_key|]. intros current.
  apply changes_bind.
  { destruct current; [apply changes_delete_uploaded_file | apply changes_skip]. }
  intros _. apply changes_bind; [apply changes_upload_document|].
  intros [f|]; [|apply changes_skip].
  intros rt. apply change_stored.
Qed.

Lemma changes_manual_delete c w : changes (app.manual_delete remote c w).
Proof.
  unfold app.manual_delete.
  apply changes_bind; [apply changes_read_key|]. intros [h|]; [|apply changes_skip].
  apply changes_bind; [apply changes_read_key|]. intros done.
  destruct (negb done); [|apply changes_skip].
  destruct (delete_clicked w); [|apply changes_skip].
  apply changes_bind; [apply changes_delete_uploaded_file|]. intros _.
  intros rt. apply change_deleted.
Qed.

Lemma changes_main w : changes (app.main remote w).
Proof.
  unfold app.main.
  apply changes_bind; [apply changes_initialize_client|].
  intros [[c|] error_message].
  - apply changes_init; [apply change_init_file|].
    apply changes_init; [apply change_init_flag|].
    apply changes_bind; [apply changes_read_key|]. intros current.
    apply changes_bind.
    { destruct current, (file_uploader w);
        try apply changes_skip; apply changes_emit. }
    intros _. apply changes_bind.
    { destruct (file_uploader w) as [uf|]; [|apply changes_skip].
      destruct (process_clicked w); [|apply changes_skip].
      apply changes_process_document_clicked. }
    intros _. apply changes_bind; [apply changes_manual_delete|].
    intros _. apply changes_chat_with_document.
  - destruct error_message; [apply changes_emit | apply changes_raise].
Qed.

Lemma changes_script_run w : changes (app.script_run remote w).
Proof.
  unfold app.script_run.
  apply changes_try_except; [apply changes_main|].
  intros _. apply changes_main.
Qed.

End MainChanges.

(** * The properties of the specification *)

(** ** C5: [delete_uploaded_file] *)

(** C5.  Every call of [engine.delete_uploaded_file] returns: it makes the
    one [files.delete] call and then shows one status element, the toast if
    the call returned and the warning, carrying the error, if it raised (as
    it does for a handle whose remote file is already gone); no exception
    reaches the caller, and nothing but the trace changes. *)
Theorem delete_uploaded_file_never_raises
    (remote : Remote) (c : Client) (f : types.File) (rt : Runtime) :
  engine.delete_uploaded_file remote c f rt =
  (Returns (),
   log match on_delete remote (trace rt) c (types.name f) with
       | Ok _ =>
           st_toast ("Clean up complete. File " +:+ types.name f +:+ " deleted.")
       | Err msg =>
           st_warning ("Failed to delete file " +:+ types.name f
                       +:+ ". Error: " +:+ msg)
       end
     (log (files_delete (types.name f)) rt)).
Proof. apply delete_uploaded_file_eq. Qed.

(** ** C2 and C7: [upload_document] *)



(** The path is not one-to-one in the file name, and an absolute file name
    leaves [temp_uploads]. *)
Lemma temp_file_path_examples :
  temp_file_path "report.pdf" = "temp_uploads/report.pdf"
  ∧ temp_file_path "./report.pdf" = "temp_uploads/report.pdf"
  ∧ temp_file_path "report.pdf/" = "temp_uploads/report.pdf"
  ∧ temp_file_path "sub/report.pdf" = "temp_uploads/sub/report.pdf"
  ∧ temp_file_path "../report.pdf" = "temp_uploads/../report.pdf"
  ∧ temp_file_path "/tmp/report.pdf" = "/tmp/report.pdf"
  ∧ temp_file_path "" = "temp_uploads".
Proof. vm_compute. repeat split. Qed.





(** ** C3: [process_document] and the chat turn *)

(** C3 as stated fails on the literal: when the generate call raises, the
    string returned is not "Failed to get response". *)
Lemma process_document_fallback_literal :
  let f := {| types.name := "files/h1" |} in
  let rt := new_process secrets_ok in
  on_generate service_down (trace rt) the_client "gemini-2.5-flash" (f, "summarize")
    = Err "503"
  ∧ fst (engine.process_document service_down the_client f "summarize" rt)
    = Returns (Some "Failed to get response from Gemini.")
  ∧ fst (engine.process_document service_down the_client f "summarize" rt)
    ≠ Returns (Some "Failed to get response").
Proof. simpl. repeat split. intros [=]. Qed.

(** C3, as the code has it.  Whenever the generate call raises,
    [engine.process_document] catches the error, shows it with [st.error]
    and returns the fixed string "Failed to get response from Gemini.".  In
    a chat turn ([chat_with_document] with a prompt, a handle being held)
    the history gets the user's message and then an assistant message whose
    content is that string, not [None]; the turn returns and the handle and
    the flag are as before. *)
Theorem generation_failure_falls_back
    (remote : Remote) (c : Client) (f : types.File) (p : string) (msg : string) :
  (∀ rt,
     on_generate remote (trace rt) c "gemini-2.5-flash" (f, p) = Err msg ->
     engine.process_document remote c f p rt =
     (Returns (Some "Failed to get response from Gemini."),
      log (st_error ("Error during content generation: " +:+ msg))
        (log (generate_content "gemini-2.5-flash" (f, p)) rt)))
  ∧ (∀ rt,
       uploaded_file_object (session_state rt) = Some (Some f) ->
       p ≠ "" ->
       let ms := default [greeting] (messages (session_state rt)) in
       let user := st_chat_message "user" (Some p) in
       on_generate remote (trace rt ++ rendered ms ++ [user]) c
         "gemini-2.5-flash" (f, p) = Err msg ->
       ∃ rt',
         app.chat_with_document remote c (Some p) rt = (Returns (), rt')
         ∧ messages (session_state rt') =
             Some (ms ++ [ {| role := "user"; content := Some p |};
                           {| role := "assistant";
                              content := Some "Failed to get response from Gemini." |} ])
         ∧ trace rt' =
             trace rt ++ rendered ms
               ++ [user; generate_content "gemini-2.5-flash" (f, p);
                   st_error ("Error during content generation: " +:+ msg);
                   st_chat_message "assistant"
                     (Some "Failed to get response from Gemini.")]
         ∧ uploaded_file_object (session_state rt') = Some (Some f)
         ∧ cleanup_done (session_state rt') = cleanup_done (session_state rt)).
Proof.
  split.
  - intros rt E. rewrite process_document_eq. simpl. by rewrite E.
  - intros rt Hf Hp ms user E.
    rewrite (chat_with_document_eq remote c (Some p) rt f Hf). simpl.
    destruct p as [|a p]; [done|].
    rewrite process_document_eq. simpl.
    rewrite trace_log_all. simpl. fold ms. fold user.
    rewrite <- app_assoc. rewrite E.
    eexists. split; [reflexivity|]. simpl.
    rewrite ?trace_log_all, ?session_state_log_all. simpl.
    repeat split; try done. by rewrite <- !app_assoc.
Qed.

(** The chat turn of C3 on a service that is down. *)
Lemma generation_failure_falls_back_witness :
  let f := {| types.name := "files/h1" |} in
  let rt := with_session_state
              (set_messages [] (set_uploaded_file_object (Some f) new_session))
              (new_process secrets_ok) in
  fst (engine.process_document service_down the_client f "summarize" rt)
    = Returns (Some "Failed to get response from Gemini.")
  ∧ ∃ rt',
      app.chat_with_document service_down the_client (Some "summarize") rt
        = (Returns (), rt')
      ∧ messages (session_state rt') =
          Some [ {| role := "user"; content := Some "summarize" |};
                 {| role := "assistant";
                    content := Some "Failed to get response from Gemini." |} ].
Proof.
  intros f rt.
  pose proof (generation_failure_falls_back service_down the_client f
                "summarize" "503") as [H1 H2].
  split.
  - rewrite (H1 rt); reflexivity.
  - destruct (H2 rt) as (rt' & E & Hm & _); [reflexivity | done | reflexivity |].
    exists rt'. split; [exact E | exact Hm].
Defined.

(** ** C4: a missing or placeholder key *)

(** In [engine.py] a key that is missing from the secrets file, the
    placeholder and the empty string all end in the [except KeyError]: no
    client is built and the pair of [None] and the message comes back. *)
Lemma engine_initialize_client_rejects (remote : Remote) (rt : Runtime) :
  cache_initialize_client rt !! () = None ->
  (secrets rt !! "GEMINI_API_KEY" = None ∧ secrets_toml rt = true)
  ∨ secrets rt !! "GEMINI_API_KEY" = Some "YOUR_ACTUAL_API_KEY"
  ∨ secrets rt !! "GEMINI_API_KEY" = Some "" ->
  ∃ rt',
    engine.initialize_client remote rt
      = (Returns (None, Some engine.KEY_not_found), rt')
    ∧ trace rt' = trace rt
    ∧ engine.KEY_not_found ≠ "".
Proof.
  intros Hc Hk.
  assert (engine.initialize_client_body remote rt
          = (Returns (None, Some engine.KEY_not_found), rt)) as E.
  { rewrite initialize_client_body_eq.
    by destruct Hk as [[-> ->] | [-> | ->]]. }
  unfold engine.initialize_client, st_cache_resource. rewrite Hc, E.
  eexists. split; [reflexivity|]. split; [reflexivity|]. done.
Qed.

(** C4 at the placeholder in [document_analyzer_app.py]: the key is passed
    to [genai.Client] and the client comes back, with no error recorded;
    [engine.initialize_client] on the same input returns [None] and the
    message. *)
Theorem single_file_initialize_client_accepts_placeholder :
  let rt := new_process secrets_placeholder in
  let r := document_analyzer_app.initialize_client service_up rt in
  fst r = Returns (Some the_client)
  ∧ trace (snd r) = [genai_Client "YOUR_ACTUAL_API_KEY"]
  ∧ client_error (session_state (snd r)) = None
  ∧ fst (engine.initialize_client service_up rt)
    = Returns (None, Some engine.KEY_not_found).
Proof. vm_compute. repeat split. Qed.

(** ** C8: the client is built once *)

Lemma invocations_hit (remote : Remote) envs rt r :
  cache_initialize_client rt !! () = Some r ->
  Forall (λ o, o = Returns r) (fst (invocations remote envs rt))
  ∧ trace (snd (invocations remote envs rt)) = trace rt
  ∧ cache_initialize_client (snd (invocations remote envs rt)) !! () = Some r.
Proof.
  revert rt. induction envs as [|[sec s] envs IH]; intros rt Hc; simpl.
  - by repeat split.
  - rewrite (initialize_client_hit remote _ r) by exact Hc.
    specialize (IH (with_session_state s (with_secrets sec rt)) Hc).
    destruct (invocations remote envs _) as [os rt2]. simpl in *.
    destruct IH as (Hall & Ht & Hc'). repeat split; auto.
Qed.

(** In [engine.py]: however many invocations follow one another in a
    process, from whatever session and under whatever secrets, at most one
    client is built; and once an invocation has returned, all that follow
    return the same.  (Before that, an invocation can only have raised for
    want of a secrets file.) *)
Lemma engine_initialize_client_once (remote : Remote) envs rt :
  ∃ raised returned r new,
    fst (invocations remote envs rt) = (Raises <$> raised) ++ returned
    ∧ Forall (λ o, o = Returns r) returned
    ∧ trace (snd (invocations remote envs rt)) = trace rt ++ new
    ∧ (List.length (filter is_genai_Client new) ≤ 1)%nat.
Proof.
  revert rt. induction envs as [|[sec s] envs IH]; intros rt; simpl.
  - exists [], [], (None, None), []. simpl.
    split_and!; [done | constructor | by rewrite app_nil_r | lia].
  - destruct (initialize_client_run remote
                (with_session_state s (with_secrets sec rt)))
      as ([r|e] & new & rt1 & E & Ht & Hn & _ & Hr & He); rewrite E.
    + specialize (Hr r eq_refl).
      destruct (invocations_hit remote envs rt1 r Hr) as (Hall & Ht' & _).
      destruct (invocations remote envs rt1) as [os rt2]. simpl in *.
      exists [], (Returns r :: os), r, new. simpl.
      split_and!; auto. by rewrite Ht', Ht.
    + destruct (He e eq_refl) as (-> & _).
      destruct (IH (with_session_state s (with_secrets sec rt)))
        as (raised & returned & r & new' & Eo & Hall & Ht' & Hn').
      destruct (invocations remote envs _) as [os rt2]. simpl in *.
      exists (e :: raised), returned, r, new'. simpl. rewrite Eo.
      split_and!; auto.
Qed.

(** C8 in [document_analyzer_app.py]: the client is kept in
    [st.session_state]; a second call in the same session reuses it, but the
    first call of a second session of the same process builds a client
    again. *)
Theorem single_file_initialize_client_per_session :
  let rt1 := snd (document_analyzer_app.initialize_client service_up
                    (new_process secrets_ok)) in
  let same_session := snd (document_analyzer_app.initialize_client service_up rt1) in
  let other_session :=
    snd (document_analyzer_app.initialize_client service_up
           (with_session_state new_session rt1)) in
  filter is_genai_Client (trace rt1) = [genai_Client "AIza-key"]
  ∧ filter is_genai_Client (trace same_session) = [genai_Client "AIza-key"]
  ∧ filter is_genai_Client (trace other_session)
    = [genai_Client "AIza-key"; genai_Client "AIza-key"].
Proof. vm_compute. repeat split. Qed.

(** ** C6: the history after an upload *)

(** While the key [messages] is present the chat renders the history as it
    is: the greeting is appended only when the key is absent. *)
Lemma chat_renders_history_as_is (remote : Remote) c rt f ms :
  uploaded_file_object (session_state rt) = Some (Some f) ->
  messages (session_state rt) = Some ms ->
  app.chat_with_document remote c None rt = (Returns (), log_all (rendered ms) rt).
Proof.
  intros Hf Hm. rewrite (chat_with_document_eq remote c None rt f Hf). simpl.
  rewrite Hm. simpl. by rewrite (set_messages_id _ _ Hm), with_session_state_id.
Qed.

(** In every session state the page can reach, a held handle comes with the
    key [messages]: the branch of [chat_with_document] that appends the
    greeting is never taken. *)
Lemma history_with_handle_change s s' :
  session_change s s' -> history_with_handle s -> history_with_handle s'.
Proof.
  unfold history_with_handle.
  induction 1 as [s|s1 s2 s3 _ IH1 _ IH2|s Hs|s Hs|s ms|s f|s]; simpl; eauto.
  by intros _ [f [=]].
Qed.

Lemma history_with_handle_reachable (remote : Remote) (ws : list Widgets) sec :
  history_with_handle
    (session_state
       (foldl (λ rt w, snd (app.script_run remote w rt)) (new_process sec) ws)).
Proof.
  assert (history_with_handle (session_state (new_process sec))) as H0
    by (intros [f [=]]).
  revert H0. generalize (new_process sec).
  induction ws as [|w ws IH]; intros rt H0; simpl; [done|].
  apply IH. eapply history_with_handle_change; [apply changes_script_run | done].
Qed.

(** C6 on the scenario of the specification (upload report.pdf, ask
    "summarize", upload report2.pdf): the second upload deletes the first
    handle and stores the new one, and the history is then the empty list,
    without the greeting; the run that follows [st.rerun()] renders no chat
    message at all.  The same holds after the first upload. *)
Theorem upload_leaves_history_empty :
  messages (session_state scenario_1) = Some []
  ∧ filter is_st_chat_message (trace scenario_1) = []
  ∧ messages (session_state scenario_2)
    = Some [ {| role := "user"; content := Some "summarize" |};
             {| role := "assistant"; content := Some "T1" |} ]
  ∧ uploaded_file_object (session_state scenario_3)
    = Some (Some {| types.name := "files/temp_uploads/report2.pdf" |})
  ∧ messages (session_state scenario_3) = Some []
  ∧ messages (session_state scenario_3) ≠ Some [greeting]
  ∧ since (List.length (trace scenario_2)) (trace scenario_3)
    = [ files_delete "files/temp_uploads/report.pdf";
        st_toast "Clean up complete. File files/temp_uploads/report.pdf deleted.";
        open_wb "temp_uploads/report2.pdf" "two";
        files_upload "temp_uploads/report2.pdf";
        os_remove "temp_uploads/report2.pdf";
        os_rmdir "temp_uploads" ].
Proof. vm_compute. repeat split. intros [=]. Qed.

(** ** C1: the deletion before a replacement *)

(** In [app.py]: with a handle held, the block under "Process Document"
    makes exactly one [files.delete] call, for that handle, before anything
    else, hence before the upload. *)
Lemma app_process_document_clicked_deletes_once (remote : Remote) c uf rt h :
  uploaded_file_object (session_state rt) = Some (Some h) ->
  ∃ o new rt',
    app.process_document_clicked remote c uf rt = (o, rt')
    ∧ trace rt' = trace rt ++ files_delete (types.name h) :: new
    ∧ filter is_files_delete new = [].
Proof.
  intros Hh. rewrite (process_document_clicked_eq remote c uf rt _ Hh).
  rewrite delete_uploaded_file_eq. simpl.
  destruct (upload_document_run remote c uf
              (log (delete_report h (on_delete remote (trace rt) c (types.name h)))
                 (log (files_delete (types.name h)) rt)))
    as (o & new & rt2 & -> & Ht & Hn & _).
  simpl in Ht. rewrite <- !app_assoc in Ht. simpl in Ht.
  destruct o as [[f|]|e]; eexists _, _, _; (split; [reflexivity|]); simpl;
    (split; [exact Ht|]);
    by destruct (on_delete remote (trace rt) c (types.name h)).
Qed.

(** C1 in [document_analyzer_app.py], where [delete_uploaded_file] is still
    under [@st.cache_resource]: a.pdf is uploaded, b.pdf is rejected (the
    deletion of a.pdf's handle is attempted and fails), then c.pdf is
    processed.  The session still holds a.pdf's handle before the third
    click, yet that click makes no [files.delete] call: the call is skipped
    as stored.  In [app.py] the same click deletes first. *)
Theorem single_file_replacement_skips_deletion :
  uploaded_file_object (session_state single_file_b)
    = Some (Some {| types.name := "files/temp_uploads/a.pdf" |})
  ∧ filter is_sdk_call
      (since (List.length (trace single_file_b)) (trace single_file_c))
    = [files_upload "temp_uploads/c.pdf"]
  ∧ uploaded_file_object (session_state single_file_c)
    = Some (Some {| types.name := "files/temp_uploads/c.pdf" |})
  ∧ filter is_sdk_call (since (List.length (trace split_b)) (trace split_c))
    = [files_delete "files/temp_uploads/a.pdf"; files_upload "temp_uploads/c.pdf"].
Proof. vm_compute. repeat split. Qed.

(** ** C9: the clean-up flag and the handle *)

(** C9.  A run of [main], and a whole interaction ([script_run], with the
    rerun), changes the session only by initialising the two keys, assigning
    the history, storing a new handle together with lowering the flag, or
    clearing the handle together with raising the flag; so if no handle is
    held whenever [cleanup_done] is true before the run, the same holds
    after it, whatever the widgets and the service do. *)
Theorem cleanup_done_implies_no_handle
    (remote : Remote) (w : Widgets) (rt : Runtime) :
  cleanup_invariant (session_state rt) ->
  (session_change (session_state rt) (session_state (snd (app.main remote w rt)))
   ∧ cleanup_invariant (session_state (snd (app.main remote w rt))))
  ∧ (session_change (session_state rt)
       (session_state (snd (app.script_run remote w rt)))
     ∧ cleanup_invariant (session_state (snd (app.script_run remote w rt)))).
Proof.
  intros Hinv.
  pose proof (changes_main remote w rt) as Hm.
  pose proof (changes_script_run remote w rt) as Hs.
  repeat split; eauto using cleanup_invariant_change.
Qed.

(** C9 through a state with [cleanup_done] true.  In [scenario_2] a handle
    is held; the manual deletion (here with the file store down) raises the
    flag and, by the invariant, holds no handle afterwards.  From that
    state, with the flag true, an upload stores a handle and the invariant
    still holds, the flag being lowered. *)
Lemma cleanup_done_implies_no_handle_witness :
  cleanup_invariant (session_state scenario_2)
  ∧ (cleanup_done (session_state scenario_deleted) = Some true
     ∧ uploaded_file_object (session_state scenario_deleted) = Some None)
  ∧ cleanup_invariant (session_state scenario_reloaded)
  ∧ uploaded_file_object (session_state scenario_reloaded)
    = Some (Some {| types.name := "files/temp_uploads/report2.pdf" |})
  ∧ cleanup_done (session_state scenario_reloaded) = Some false.
Proof.
  assert (cleanup_invariant (session_state scenario_2)) as H2
    by (intros H; vm_compute in H; discriminate H).
  pose proof (proj2 (proj2 (cleanup_done_implies_no_handle service_down
                              (click_delete None) scenario_2 H2))) as Hd.
  fold scenario_deleted in Hd.
  assert (cleanup_done (session_state scenario_deleted) = Some true) as Hflag
    by (vm_compute; reflexivity).
  pose proof (proj2 (proj2 (cleanup_done_implies_no_handle service_up
                              (click_process (doc "report2.pdf" "two"))
                              scenario_deleted Hd))) as Hr.
  fold scenario_reloaded in Hr.
  split; [exact H2|]. split; [split; [exact Hflag | exact (Hd Hflag)]|].
  split; [exact Hr|]. split; vm_compute; reflexivity.
Defined.

(** The invariant holds in every session state the page can reach. *)
Lemma cleanup_invariant_reachable (remote : Remote) (ws : list Widgets) sec :
  cleanup_invariant
    (session_state
       (foldl (λ rt w, snd (app.script_run remote w rt)) (new_process sec) ws)).
Proof.
  assert (cleanup_invariant (session_state (new_process sec))) as H0
    by (intros [=]).
  revert H0. generalize (new_process sec).
  induction ws as [|w ws IH]; intros rt H0; simpl; [done|].
  apply IH. eapply cleanup_invariant_change; [apply changes_script_run | done].
Qed.

(** ** C10: a replacement that fails *)

(** A run of [main] in a process whose client is stored, with both keys
    initialised: the three blocks one after the other. *)
Lemma main_eq (remote : Remote) w rt c err current done :
  cache_initialize_client rt !! () = Some (Some c, err) ->
  uploaded_file_object (session_state rt) = Some current ->
  cleanup_done (session_state rt) = Some done ->
  app.main remote w rt =
  ((match current, file_uploader w with
    | Some _, None =>
        emit (st_warning "File is loaded. To upload a new file, clear the current one.")
    | _, _ => skip
    end;;
    match file_uploader w with
    | Some uploaded_file_input =>
        if process_clicked w
        then app.process_document_clicked remote c uploaded_file_input
        else skip
    | None => skip
    end;;
    app.manual_delete remote c w;;
    app.chat_with_document remote c (chat_input w)) rt).
Proof.
  intros Hc Ho Hd. unfold app.main.
  rewrite (bind_Returns _ _ _ _ _ (initialize_client_hit remote rt _ Hc)).
  unfold has_key, read_key, skip, mbind, Py_bind, mret, Py_ret.
  rewrite Ho. simpl. rewrite Hd. simpl. rewrite Ho. reflexivity.
Qed.

(** C10.  In a session that holds the handle [h] (client stored, keys
    initialised), "Process Document" is clicked and [upload_document]
    returns [None] after the deletion of [h] was attempted.  Then the run of
    [main] returns without a rerun and leaves the session state as it was
    ([h] still held, history not cleared), the first call of the run being
    [files.delete] for [h]; and the chat turn of the next run sends the
    generate request with [h]. *)
Theorem failed_replacement_keeps_stale_handle
    (remote : Remote) (c : Client) (err : option string) (h : types.File)
    (flag : bool) (ms : list Message) (uf : UploadedFile.t)
    (rt rt2 : Runtime) :
  cache_initialize_client rt !! () = Some (Some c, err) ->
  uploaded_file_object (session_state rt) = Some (Some h) ->
  cleanup_done (session_state rt) = Some flag ->
  messages (session_state rt) = Some ms ->
  engine.upload_document remote c uf
    (snd (engine.delete_uploaded_file remote c h rt)) = (Returns None, rt2) ->
  ∃ rt',
    app.main remote (click_process uf) rt = (Returns (), rt')
    ∧ session_state rt' = session_state rt
    ∧ (∃ new, trace rt' = trace rt ++ files_delete (types.name h) :: new)
    ∧ ∀ p, p ≠ "" ->
        ∃ o rt'' answer,
          app.main remote (ask uf p) rt' = (o, rt'')
          ∧ trace rt'' =
              trace rt' ++ rendered ms
                ++ st_chat_message "user" (Some p)
                :: generate_content "gemini-2.5-flash" (h, p) :: answer.
Proof.
  intros Hc Ho Hd Hm Hup.
  destruct (upload_document_run remote c uf
              (snd (engine.delete_uploaded_file remote c h rt)))
    as (o & new & rt2' & E & Ht & _ & Hs & _).
  pose proof (upload_document_keeps_client remote c uf
                (snd (engine.delete_uploaded_file remote c h rt))) as Hk.
  rewrite Hup in E, Hk. injection E as <- <-.
  rewrite delete_uploaded_file_eq in Ht, Hs, Hk. simpl in Ht, Hs, Hk.
  assert (uploaded_file_object (session_state rt2) = Some (Some h)) as Ho2
    by (by rewrite Hs).
  assert (cleanup_done (session_state rt2) = Some flag) as Hd2 by (by rewrite Hs).
  assert (messages (session_state rt2) = Some ms) as Hm2 by (by rewrite Hs).
  exists (log_all (rendered ms) rt2). split; [|split; [|split]].
  - rewrite (main_eq remote _ rt c err _ _ Hc Ho Hd). simpl.
    unfold skip, mbind, Py_bind, mret, Py_ret.
    rewrite (process_document_clicked_eq remote c uf rt _ Ho). simpl.
    rewrite Hup.
    rewrite (manual_delete_eq remote c _ rt2 _ _ Ho2 Hd2). simpl.
    rewrite andb_false_r.
    apply (chat_renders_history_as_is remote c rt2 h ms Ho2 Hm2).
  - by rewrite session_state_log_all.
  - rewrite trace_log_all, Ht. rewrite <- !app_assoc. simpl. eauto.
  - intros p Hp.
    assert (cache_initialize_client (log_all (rendered ms) rt2) !! ()
            = Some (Some c, err)) as Hc'
      by (by rewrite cache_initialize_client_log_all, Hk).
    rewrite (main_eq remote _ _ c err (Some h) flag Hc');
      [|by rewrite session_state_log_all..].
    simpl. unfold skip, mbind, Py_bind, mret, Py_ret.
    rewrite (manual_delete_eq remote c _ _ (Some h) flag);
      [|by rewrite session_state_log_all..].
    simpl. rewrite andb_false_r.
    rewrite (chat_with_document_eq remote c (Some p) _ h);
      [|by rewrite session_state_log_all].
    simpl. rewrite session_state_log_all, Hm2. simpl.
    destruct p as [|a p]; [done|].
    rewrite process_document_eq. simpl.
    destruct (on_generate remote _ c _ _); eexists _, _, _;
      (split; [reflexivity|]); simpl; rewrite ?trace_log_all; simpl;
      rewrite ?trace_log_all; rewrite <- !app_assoc; simpl; reflexivity.
Qed.

(** C10 in the session of [split_a] (a.pdf accepted), b.pdf being
    rejected. *)
Lemma failed_replacement_keeps_stale_handle_witness :
  ∃ rt',
    app.main service_flaky (click_process (doc "b.pdf" "B")) split_a
      = (Returns (), rt')
    ∧ session_state rt' = session_state split_a
    ∧ uploaded_file_object (session_state rt')
      = Some (Some {| types.name := "files/temp_uploads/a.pdf" |}).
Proof.
  destruct (failed_replacement_keeps_stale_handle service_flaky the_client None
              {| types.name := "files/temp_uploads/a.pdf" |} false []
              (doc "b.pdf" "B") split_a
              (snd (engine.upload_document service_flaky the_client (doc "b.pdf" "B")
                 (snd (engine.delete_uploaded_file service_flaky the_client
                         {| types.name := "files/temp_uploads/a.pdf" |} split_a)))))
    as (rt' & E & Hs & _); try (vm_compute; reflexivity).
  exists rt'. split; [exact E|]. split; [exact Hs|]. rewrite Hs.
  vm_compute. reflexivity.
Defined.


(** * Further properties of the code *)

(** ** A run of [app.main], block by block *)

Lemma main_after_init (remote : Remote) w rt c err rt0 :
  engine.initialize_client remote rt = (Returns (Some c, err), rt0) ->
  app.main remote w rt =
  sidebar_and_chat remote c w
    (with_session_state (init_keys (session_state rt0)) rt0).
Proof.
  intros E. unfold app.main, sidebar_and_chat.
  rewrite (bind_Returns _ _ _ _ _ E).
  unfold has_key, read_key, skip, assign, mbind, Py_bind, mret, Py_ret, init_keys.
  destruct rt0 as [t sec st h c1 c2 e2 c3 e3 [[o|] [cd|] ms cl ce]]; reflexivity.
Qed.

Lemma init_keys_present s :
  is_Some (uploaded_file_object (init_keys s))
  ∧ is_Some (cleanup_done (init_keys s)).
Proof.
  unfold init_keys.
  destruct s as [[o|] [cd|] ms cl ce]; simpl; split; eauto.
Qed.

Section Blocks.

Variable remote : Remote.

Lemma process_block_run c w rt current :
  uploaded_file_object (session_state rt) = Some current ->
  ∃ o rt',
    match file_uploader w with
    | Some uploaded_file_input =>
        if process_clicked w
        then app.process_document_clicked remote c uploaded_file_input
        else skip
    | None => skip
    end rt = (o, rt')
    ∧ cache_initialize_client rt' = cache_initialize_client rt
    ∧ ((o = Returns () ∧ session_state rt' = session_state rt)
       ∨ (o = Raises Rerun ∧ process_clicked w = true
          ∧ ∃ f, session_state rt' =
                 set_cleanup_done false
                   (set_messages []
                      (set_uploaded_file_object (Some f) (session_state rt))))
       ∨ (∃ e, o = Raises e ∧ exc_class e = OSError
               ∧ process_clicked w = true ∧ is_Some (file_uploader w)
               ∧ session_state rt' = session_state rt)).
Proof.
  intros Ho.
  destruct (file_uploader w) as [uf|]; [|by exists (Returns ()), rt; auto].
  destruct (process_clicked w) eqn:Hp; [|by exists (Returns ()), rt; auto].
  rewrite (process_document_clicked_eq remote c uf rt _ Ho). simpl.
  set (rt1 := match current with
              | Some h => snd (engine.delete_uploaded_file remote c h rt)
              | None => rt
              end).
  assert (cache_initialize_client rt1 = cache_initialize_client rt
          ∧ session_state rt1 = session_state rt) as [Hc1 Hs1].
  { subst rt1. destruct current as [h|]; [|done].
    by rewrite delete_uploaded_file_eq. }
  destruct (upload_document_run remote c uf rt1)
    as (o & new & rt2 & E & _ & _ & Hs & Hk & He).
  rewrite E.
  destruct o as [[f|]|e]; eexists _, _; (split; [reflexivity|]); simpl.
  - split; [congruence|]. right. left. repeat split. exists f.
    by rewrite Hs, Hs1.
  - split; [congruence|]. left. split; [done|]. congruence.
  - split; [congruence|]. right. right. exists e.
    split_and!; eauto. congruence.
Qed.

Lemma manual_delete_run c w rt current done :
  uploaded_file_object (session_state rt) = Some current ->
  cleanup_done (session_state rt) = Some done ->
  ∃ o rt',
    app.manual_delete remote c w rt = (o, rt')
    ∧ cache_initialize_client rt' = cache_initialize_client rt
    ∧ ((o = Returns () ∧ rt' = rt)
       ∨ (o = Raises Rerun ∧ delete_clicked w = true
          ∧ session_state rt' =
              set_messages []
                (set_cleanup_done true
                   (set_uploaded_file_object None (session_state rt))))).
Proof.
  intros Ho Hd. rewrite (manual_delete_eq remote c w rt _ _ Ho Hd).
  destruct current as [h|]; [|by exists (Returns ()), rt; auto].
  destruct done; simpl; [by exists (Returns ()), rt; auto|].
  destruct (delete_clicked w); [|by exists (Returns ()), rt; auto].
  rewrite delete_uploaded_file_eq. simpl.
  eexists _, _. split; [reflexivity|]. simpl. split; [done|]. right. auto.
Qed.

Lemma chat_run c prompt rt :
  ∃ rt',
    app.chat_with_document remote c prompt rt = (Returns (), rt')
    ∧ cache_initialize_client rt' = cache_initialize_client rt
    ∧ uploaded_file_object (session_state rt')
      = uploaded_file_object (session_state rt)
    ∧ cleanup_done (session_state rt') = cleanup_done (session_state rt).
Proof.
  destruct (uploaded_file_object (session_state rt)) as [[f|]|] eqn:Ho.
  - rewrite (chat_with_document_eq remote c prompt rt f Ho). simpl.
    destruct prompt as [[|a p]|].
    2: { rewrite process_document_eq. simpl.
         destruct (on_generate remote _ c _ _); eexists; (split; [reflexivity|]);
           simpl; rewrite ?cache_initialize_client_log_all,
                    ?session_state_log_all; simpl; by rewrite ?Ho. }
    all: eexists; (split; [reflexivity|]);
      rewrite ?cache_initialize_client_log_all, ?session_state_log_all;
      simpl; by rewrite ?Ho.
  - rewrite chat_with_document_no_file by auto.
    eexists. split; [reflexivity|]. simpl. by rewrite Ho.
  - rewrite chat_with_document_no_file by auto.
    eexists. split; [reflexivity|]. simpl. by rewrite Ho.
Qed.

(** The rest of [main]: it returns, or stops at [st.rerun()], and that only
    under a click, or is left by what the host raised in [upload_document];
    the stored client and the presence of the two keys are kept. *)
Lemma sidebar_and_chat_run c w rt :
  is_Some (uploaded_file_object (session_state rt)) ->
  is_Some (cleanup_done (session_state rt)) ->
  ∃ o rt',
    sidebar_and_chat remote c w rt = (o, rt')
    ∧ cache_initialize_client rt' = cache_initialize_client rt
    ∧ is_Some (uploaded_file_object (session_state rt'))
    ∧ is_Some (cleanup_done (session_state rt'))
    ∧ (o = Returns ()
       ∨ (o = Raises Rerun
          ∧ (process_clicked w = true ∨ delete_clicked w = true))
       ∨ (∃ e, o = Raises e ∧ exc_class e = OSError
               ∧ process_clicked w = true ∧ is_Some (file_uploader w))).
Proof.
  intros [current Ho] [done Hd]. unfold sidebar_and_chat.
  unfold read_key at 1. unfold mbind at 1, Py_bind at 1. rewrite Ho.
  set (rtA := snd (match current, file_uploader w with
                   | Some _, None =>
                       emit (st_warning
                         "File is loaded. To upload a new file, clear the current one.")
                   | _, _ => skip
                   end rt)).
  assert (match current, file_uploader w with
          | Some _, None =>
              emit (st_warning
                "File is loaded. To upload a new file, clear the current one.")
          | _, _ => skip
          end rt = (Returns (), rtA)
          ∧ cache_initialize_client rtA = cache_initialize_client rt
          ∧ session_state rtA = session_state rt) as (EA & HcA & HsA).
  { subst rtA. by destruct current, (file_uploader w). }
  rewrite (bind_Returns _ _ _ _ _ EA).
  assert (uploaded_file_object (session_state rtA) = Some current) as HoA
    by (by rewrite HsA).
  destruct (process_block_run c w rtA current HoA)
    as (oB & rtB & EB & HcB
        & [[-> HsB] | [(-> & Hp & f & HsB) | (e & -> & He & Hp & Hu & HsB)]]).
  2: { rewrite (bind_Raises_eq _ _ _ _ _ EB). eexists _, _.
       split; [reflexivity|]. rewrite HsB. simpl.
       split_and!; eauto; congruence. }
  2: { rewrite (bind_Raises_eq _ _ _ _ _ EB).
       eexists _, _. split; [reflexivity|]. rewrite HsB, HsA, Ho, Hd.
       split_and!; eauto; [congruence|]. right. right. eauto. }
  rewrite (bind_Returns _ _ _ _ _ EB).
  assert (uploaded_file_object (session_state rtB) = Some current) as HoB
    by (by rewrite HsB).
  assert (cleanup_done (session_state rtB) = Some done) as HdB
    by (by rewrite HsB, HsA).
  destruct (manual_delete_run c w rtB current done HoB HdB)
    as (oC & rtC & EC & HcC & [[-> ->] | (-> & Hp & HsC)]).
  2: { rewrite (bind_Raises_eq _ _ _ _ _ EC). eexists _, _.
       split; [reflexivity|]. rewrite HsC. simpl.
       split_and!; eauto; congruence. }
  rewrite (bind_Returns _ _ _ _ _ EC).
  destruct (chat_run c (chat_input w) rtB) as (rtD & ED & HcD & HoD & HdD).
  exists (Returns ()), rtD. rewrite ED, HoD, HdD, HoB, HdB.
  split_and!; eauto; congruence.
Qed.

End Blocks.

(** ** [engine.initialize_client] under the precondition of [main] *)

Lemma initialize_client_ok (remote : Remote) rt :
  client_cache_ok rt ->
  ∃ o rt0,
    engine.initialize_client remote rt = (o, rt0)
    ∧ session_state rt0 = session_state rt
    ∧ match o with
      | Returns r =>
          cache_initialize_client rt0 !! () = Some r
          ∧ (is_Some r.1 ∨ is_Some r.2)
      | Raises e =>
          rt0 = rt ∧ exc_class e = FileNotFoundError
          ∧ cache_initialize_client rt !! () = None
          ∧ secrets rt !! "GEMINI_API_KEY" = None ∧ secrets_toml rt = false
      end.
Proof.
  intros Hok.
  destruct (cache_initialize_client rt !! ()) as [r|] eqn:E.
  - exists (Returns r), rt. rewrite (initialize_client_hit remote _ _ E). auto.
  - destruct (initialize_client_body_run remote rt)
      as (o & new & Eb & _ & _ & Hshape & He).
    unfold engine.initialize_client, st_cache_resource. rewrite E, Eb.
    destruct o as [r|e]; eexists _, _; (split; [reflexivity|]); simpl;
      rewrite ?session_state_log_all; (split; [done|]).
    + split; [apply lookup_insert_eq | by apply Hshape].
    + destruct (He e eq_refl) as (-> & ? & ? & ?). auto.
Qed.

(** ** How an interaction can end *)

(** X1.  Whatever the widgets return and whatever the service does, one
    interaction with the page of [app.py] (the script run and, after
    [st.rerun()], the run that follows) ends in one of three ways.  It
    returns.  Or [st.secrets] finds no secrets file while no result of
    [initialize_client] is stored: the [FileNotFoundError] passes the
    [except KeyError] and leaves the script, with nothing changed.  Or
    "Process Document" was clicked and a file-system call of
    [upload_document] raised.  No error of the SDK reaches the Streamlit
    runner, no key of the session is read before it is set, and the run
    after a rerun does not rerun again.  The precondition, that a stored
    result of [initialize_client] is one the function can return, holds in a
    new process and is kept. *)
Theorem script_run_outcomes (remote : Remote) (w : Widgets) (rt : Runtime) :
  client_cache_ok rt ->
  ∃ o rt',
    app.script_run remote w rt = (o, rt')
    ∧ client_cache_ok rt'
    ∧ (o = Returns ()
       ∨ (∃ e, o = Raises e ∧ exc_class e = FileNotFoundError ∧ rt' = rt
               ∧ cache_initialize_client rt !! () = None
               ∧ secrets rt !! "GEMINI_API_KEY" = None
               ∧ secrets_toml rt = false)
       ∨ (∃ e, o = Raises e ∧ exc_class e = OSError
               ∧ process_clicked w = true ∧ is_Some (file_uploader w))).
Proof.
  intros Hok.
  destruct (initialize_client_ok remote rt Hok)
    as ([[[c|] err]|e] & rt0 & E & Hs0 & H0).
  - destruct H0 as [Hc0 _].
    pose proof (main_after_init remote w rt c err rt0 E) as Em.
    set (rt1 := with_session_state (init_keys (session_state rt0)) rt0) in Em.
    destruct (init_keys_present (session_state rt0)) as [Ho1 Hd1].
    assert (∀ rt2, cache_initialize_client rt2 = cache_initialize_client rt1 ->
                   client_cache_ok rt2) as Hkeep.
    { intros rt2 Hc2 r Hr. rewrite Hc2 in Hr. simpl in Hr.
      rewrite Hc0 in Hr. injection Hr as <-. simpl. eauto. }
    destruct (sidebar_and_chat_run remote c w rt1 Ho1 Hd1)
      as (o & rt2 & E2 & Hc2 & Ho2 & Hd2
          & [-> | [[-> _] | (e & -> & He & Hp & Hu)]]).
    + exists (Returns ()), rt2. unfold app.script_run, try_except.
      rewrite Em, E2. auto.
    + assert (cache_initialize_client rt2 !! () = Some (Some c, err)) as Hc2'
        by (by rewrite Hc2).
      pose proof (main_after_init remote (after_rerun w) rt2 c err rt2
                    (initialize_client_hit remote rt2 _ Hc2')) as Em'.
      destruct (sidebar_and_chat_run remote c (after_rerun w)
                  (with_session_state (init_keys (session_state rt2)) rt2))
        as (o & rt3 & E3 & Hc3 & _ & _
            & [-> | [[_ [[=] | [=]]] | (e & _ & _ & [=] & _)]]);
        [apply init_keys_present..|].
      exists (Returns ()), rt3. unfold app.script_run, try_except.
      rewrite Em, E2. simpl. rewrite Em', E3.
      split; [done|]. split; [|auto]. apply Hkeep. by rewrite Hc3.
    + exists (Raises e), rt2. unfold app.script_run, try_except.
      rewrite Em, E2. unfold is_RerunException. rewrite He. simpl.
      split; [done|]. split; [auto|]. right. right. eauto.
  - destruct H0 as [Hc0 [[? [=]] | [msg Hmsg]]]. simpl in Hmsg. subst err.
    eexists _, _. unfold app.script_run, try_except, app.main.
    rewrite (bind_Returns _ _ _ _ _ E). simpl. split; [reflexivity|].
    split; [|auto].
    intros r Hr. simpl in Hr. rewrite Hc0 in Hr. injection Hr as <-.
    simpl. eauto.
  - destruct H0 as (-> & He & Hc & Hk & Ht).
    exists (Raises e), rt. unfold app.script_run, try_except, app.main.
    rewrite (bind_Raises_eq _ _ _ _ _ E). unfold is_RerunException.
    rewrite He. simpl. split; [done|]. split; [done|].
    right. left. exists e. split_and!; auto.
Qed.

(** X1 on a question asked in [scenario_1] while the service is down: the
    interaction returns. *)
Lemma script_run_outcomes_witness :
  client_cache_ok scenario_1
  ∧ ∃ rt',
      app.script_run service_down (ask (doc "report.pdf" "one") "summarize")
        scenario_1 = (Returns (), rt').
Proof.
  assert (client_cache_ok scenario_1) as H0.
  { intros r Hr. vm_compute in Hr. injection Hr as <-. simpl. eauto. }
  split; [exact H0|].
  destruct (script_run_outcomes service_down
              (ask (doc "report.pdf" "one") "summarize") scenario_1 H0)
    as (o & rt' & E & _ & [-> | [(e & _ & _ & _ & Hc & _)
                                 | (e & _ & _ & Hp & _)]]).
  - exists rt'. exact E.
  - vm_compute in Hc. discriminate Hc.
  - discriminate Hp.
Defined.

(** ** The manual deletion *)

(** X2.  In a session that holds a handle and has not been cleaned up, a
    click on "Manually Delete File from API" makes one [files.delete] call
    for that handle and then, whether the call returned or raised, drops the
    handle, raises [cleanup_done] and empties the history; the run that
    follows the rerun shows only the invitation to upload.  A handle whose
    deletion failed is thus forgotten by the session. *)
Theorem manual_delete_forgets_handle
    (remote : Remote) (c : Client) (err : option string) (h : types.File)
    (selected : option UploadedFile.t) (rt : Runtime) :
  cache_initialize_client rt !! () = Some (Some c, err) ->
  uploaded_file_object (session_state rt) = Some (Some h) ->
  cleanup_done (session_state rt) = Some false ->
  ∃ rt',
    app.script_run remote (click_delete selected) rt = (Returns (), rt')
    ∧ session_state rt' =
        set_messages []
          (set_cleanup_done true
             (set_uploaded_file_object None (session_state rt)))
    ∧ trace rt' =
        trace rt ++ loaded_warning selected
          ++ [files_delete (types.name h);
              delete_report h
                (on_delete remote (trace rt ++ loaded_warning selected) c
                   (types.name h));
              st_info "Upload a document in the sidebar to begin chatting."].
Proof.
  intros Hc Ho Hd. unfold app.script_run, try_except.
  rewrite (main_eq remote _ rt c err _ _ Hc Ho Hd). simpl.
  set (rtA := log_all (loaded_warning selected) rt).
  assert (cache_initialize_client rtA = cache_initialize_client rt
          ∧ session_state rtA = session_state rt
          ∧ trace rtA = trace rt ++ loaded_warning selected) as (HcA & HsA & HtA).
  { subst rtA. by rewrite cache_initialize_client_log_all,
      session_state_log_all, trace_log_all. }
  assert (uploaded_file_object (session_state rtA) = Some (Some h)) as HoA
    by (by rewrite HsA).
  assert (cleanup_done (session_state rtA) = Some false) as HdA
    by (by rewrite HsA).
  assert ((match selected with
           | Some _ => skip
           | None => emit (st_warning
               "File is loaded. To upload a new file, clear the current one.")
           end) rt = (Returns (), rtA)) as EA
    by (subst rtA; by destruct selected).
  clearbody rtA.
  rewrite (bind_Returns _ _ _ _ _ EA).
  assert ((match selected with
           | Some _ => skip
           | None => skip
           end) rtA = (Returns (), rtA)) as EB by (by destruct selected).
  rewrite (bind_Returns _ _ _ _ _ EB).
  rewrite (bind_Raises_eq _ _ rtA Rerun
             (with_session_state
                (set_messages []
                   (set_cleanup_done true
                      (set_uploaded_file_object None (session_state rtA))))
                (snd (engine.delete_uploaded_file remote c h rtA)))).
  2: { rewrite (manual_delete_eq remote c _ rtA _ _ HoA HdA). simpl.
       by rewrite delete_uploaded_file_eq. }
  simpl. rewrite delete_uploaded_file_eq. simpl.
  erewrite main_eq; [| by simpl; rewrite HcA | reflexivity | reflexivity ].
  simpl. unfold skip, mbind, Py_bind, mret, Py_ret.
  clear EA EB. destruct selected as [uf|]; cbv beta iota.
  all: rewrite (manual_delete_eq remote c _ _ None true) by reflexivity.
  all: cbv beta iota.
  all: rewrite chat_with_document_no_file by (right; reflexivity).
  all: eexists; split; [reflexivity|]; simpl; rewrite HsA, HtA.
  all: split; [done|]; by rewrite <- !app_assoc.
Qed.

(** X2 in the session of [scenario_2] (report.pdf uploaded, one question
    asked). *)
Lemma manual_delete_forgets_handle_witness :
  ∃ rt',
    app.script_run service_down (click_delete None) scenario_2 = (Returns (), rt')
    ∧ uploaded_file_object (session_state rt') = Some None
    ∧ cleanup_done (session_state rt') = Some true
    ∧ messages (session_state rt') = Some [].
Proof.
  destruct (manual_delete_forgets_handle service_down the_client None
              {| types.name := "files/temp_uploads/report.pdf" |} None scenario_2)
    as (rt' & E & Hs & _); try (vm_compute; reflexivity).
  exists rt'. split; [exact E|]. by rewrite Hs.
Defined.

(** ** [engine.upload_document] across calls *)

Lemma upload_report_shown r : show <$> omap shown (upload_report r) = upload_report r.
Proof. by destruct r. Qed.

(** What a call of [upload_document] that returned has left in the tables:
    on a stored result the entry as it was; else the result and the element
    it showed, the error message of a failed upload. *)
Lemma upload_document_stores (remote : Remote) c uf rt v rt1 :
  let key := (UploadedFile.name uf, UploadedFile.getbuffer uf) in
  let path := temp_file_path (UploadedFile.name uf) in
  let r := on_upload remote
             (trace rt ++ [open_wb path (UploadedFile.getbuffer uf)]) c path in
  engine.upload_document remote c uf rt = (Returns v, rt1) ->
  cache_upload_document rt1 !! key = Some v
  ∧ (cache_upload_document rt !! key = None ->
     v = upload_result r
     ∧ elements_upload_document rt1 !! key = Some (omap shown (upload_report r))).
Proof.
  intros key path r E. rewrite upload_document_eq in E. cbv zeta in E.
  fold key in E.
  destruct (cache_upload_document rt !! key) as [v0|] eqn:Ec.
  { injection E as <- <-. rewrite log_all_eq. simpl. by split. }
  rewrite upload_document_body_eq in E. cbv zeta in E. fold path in E.
  destruct (on_mkdir (host rt) (trace rt) temp_dir) as [[]|msg]; [|done].
  destruct (on_open (host rt) (trace rt) path _) as [[]|msg]; [|done].
  fold r in E.
  destruct (remove_local_copy_run path
              (log_all (open_wb path (UploadedFile.getbuffer uf)
                        :: files_upload path :: upload_report r) rt))
    as (o & new & Er & Hnew & _).
  rewrite Er in E. destruct o as [[]|e]; [|done].
  injection E as <- <-.
  cbn [cache_upload_document elements_upload_document
       with_elements_upload_document with_cache_upload_document].
  rewrite !lookup_insert_eq.
  split; [done|]. intros _. split; [done|]. f_equal.
  repeat (rewrite trace_log_all || simpl).
  rewrite <- !app_assoc, drop_app_length.
  destruct r; destruct Hnew as [-> | ->]; reflexivity.
Qed.

(** X3.  Once [engine.upload_document] has returned for a file (its name and
    content), every later call for that file in the process (any runtime
    whose entries for the file are as that call left them) returns the same
    result, whatever client is passed and whatever the host and the service
    would answer now: it makes no call and only shows again the elements
    kept with the result.  If the first call ran the body, these are the
    [st.error] of a failed upload, or nothing after a success: an upload
    that failed ([None]) is never attempted again, and its error message is
    shown at every later attempt. *)
Theorem upload_document_memoized
    (remote remote' : Remote) (c c' : Client) (uf : UploadedFile.t)
    (v : option types.File) (rt rt1 rt2 : Runtime) :
  let key := (UploadedFile.name uf, UploadedFile.getbuffer uf) in
  let path := temp_file_path (UploadedFile.name uf) in
  let r := on_upload remote
             (trace rt ++ [open_wb path (UploadedFile.getbuffer uf)]) c path in
  let again := show <$> default [] (elements_upload_document rt1 !! key) in
  engine.upload_document remote c uf rt = (Returns v, rt1) ->
  cache_upload_document rt2 !! key = cache_upload_document rt1 !! key ->
  elements_upload_document rt2 !! key = elements_upload_document rt1 !! key ->
  engine.upload_document remote' c' uf rt2 = (Returns v, log_all again rt2)
  ∧ filter is_sdk_call again = []
  ∧ (cache_upload_document rt !! key = None ->
     v = upload_result r ∧ again = upload_report r).
Proof.
  intros key path r again E Hsame Hels.
  destruct (upload_document_stores remote c uf rt v rt1 E) as [Hv Hmiss].
  fold key in Hv, Hmiss. split; [|split].
  - rewrite upload_document_eq. cbv zeta. fold key.
    by rewrite Hsame, Hv, Hels.
  - apply show_no_sdk_call.
  - intros Hc. destruct (Hmiss Hc) as [-> Hel]. split; [done|].
    subst again. fold path r in Hel. rewrite Hel. simpl.
    apply upload_report_shown.
Qed.

(** X3 on a failed upload followed by a retry when the service is back: no
    call is made and the error of the first attempt is shown again. *)
Lemma upload_document_memoized_witness :
  let rt1 := snd (engine.upload_document service_down the_client
                    (doc "a.pdf" "A") (new_process secrets_ok)) in
  engine.upload_document service_up the_client (doc "a.pdf" "A") rt1
  = (Returns None, log (st_error "Error during file upload: 503") rt1).
Proof.
  intros rt1.
  assert (engine.upload_document service_down the_client (doc "a.pdf" "A")
            (new_process secrets_ok) = (Returns None, rt1)) as E
    by (vm_compute; reflexivity).
  exact (proj1 (upload_document_memoized service_down service_up the_client
                  the_client (doc "a.pdf" "A") None (new_process secrets_ok)
                  rt1 rt1 E eq_refl eq_refl)).
Defined.

(** ** An upload that succeeds *)

Lemma sidebar_and_chat_at_rest (remote : Remote) c uf rt f :
  uploaded_file_object (session_state rt) = Some (Some f) ->
  cleanup_done (session_state rt) = Some false ->
  messages (session_state rt) = Some [] ->
  sidebar_and_chat remote c (after_rerun (click_process uf)) rt = (Returns (), rt).
Proof.
  intros Ho Hd Hm. unfold sidebar_and_chat, read_key, skip.
  unfold mbind, Py_bind, mret, Py_ret. rewrite Ho. simpl.
  rewrite (manual_delete_eq remote c _ rt _ _ Ho Hd). simpl.
  by rewrite (chat_renders_history_as_is remote c rt f [] Ho Hm).
Qed.

(** An interaction in which "Process Document" is clicked and
    [upload_document] returns a handle: the handle is stored and the rerun
    adds nothing. *)
Lemma successful_upload_run (remote : Remote) c err uf rt rt0 current f rt2 :
  engine.initialize_client remote rt = (Returns (Some c, err), rt0) ->
  uploaded_file_object (init_keys (session_state rt0)) = Some current ->
  engine.upload_document remote c uf
    match current with
    | Some h =>
        snd (engine.delete_uploaded_file remote c h
               (with_session_state (init_keys (session_state rt0)) rt0))
    | None => with_session_state (init_keys (session_state rt0)) rt0
    end = (Returns (Some f), rt2) ->
  app.script_run remote (click_process uf) rt =
  (Returns (),
   with_session_state
     (set_cleanup_done false
        (set_messages [] (set_uploaded_file_object (Some f) (session_state rt2))))
     rt2).
Proof.
  intros E0 Ho Hup.
  set (rt1 := with_session_state (init_keys (session_state rt0)) rt0) in *.
  assert (uploaded_file_object (session_state rt1) = Some current) as Ho1
    by exact Ho.
  assert (cache_initialize_client rt2 !! () = Some (Some c, err)) as Hc2.
  { pose proof (upload_document_keeps_client remote c uf
      match current with
      | Some h => snd (engine.delete_uploaded_file remote c h rt1)
      | None => rt1
      end) as Hk.
    rewrite Hup in Hk. simpl in Hk. rewrite Hk.
    destruct (initialize_client_run remote rt)
      as (o & new & rt0' & E0' & _ & _ & _ & Hr & _).
    rewrite E0 in E0'. injection E0' as <- <-.
    specialize (Hr _ eq_refl).
    destruct current as [h|]; [rewrite delete_uploaded_file_eq|]; exact Hr. }
  unfold app.script_run, try_except.
  rewrite (main_after_init remote _ rt c err rt0 E0). fold rt1.
  unfold sidebar_and_chat at 1. unfold read_key at 1.
  unfold mbind at 1, Py_bind at 1. rewrite Ho1.
  assert (match current, file_uploader (click_process uf) with
          | Some _, None =>
              emit (st_warning
                "File is loaded. To upload a new file, clear the current one.")
          | _, _ => skip
          end rt1 = (Returns (), rt1)) as EA by (by destruct current).
  rewrite (bind_Returns _ _ _ _ _ EA). simpl.
  rewrite (bind_Raises_eq _ _ rt1 Rerun
             (with_session_state
                (set_cleanup_done false
                   (set_messages []
                      (set_uploaded_file_object (Some f) (session_state rt2))))
                rt2)).
  2: { rewrite (process_document_clicked_eq remote c uf rt1 _ Ho1). simpl.
       by rewrite Hup. }
  simpl.
  rewrite (main_after_init remote _ _ c err _
             (initialize_client_hit remote
                (with_session_state
                   (set_cleanup_done false
                      (set_messages []
                         (set_uploaded_file_object (Some f) (session_state rt2))))
                   rt2) _ Hc2)).
  unfold init_keys. simpl.
  apply (sidebar_and_chat_at_rest remote c uf _ f); reflexivity.
Qed.

(** X5.  Whenever "Process Document" is clicked, the client is there and
    [upload_document] returns a handle (after the deletion call for the
    handle held before, if any), the interaction ends normally with the new
    handle stored, the history empty and [cleanup_done] false; the run after
    the rerun makes no call and renders no message. *)
Theorem successful_upload_stores_handle
    (remote : Remote) (c : Client) (err : option string)
    (uf : UploadedFile.t) (rt rt0 rt2 : Runtime)
    (current : option types.File) (f : types.File) :
  engine.initialize_client remote rt = (Returns (Some c, err), rt0) ->
  uploaded_file_object (init_keys (session_state rt0)) = Some current ->
  engine.upload_document remote c uf
    match current with
    | Some h =>
        snd (engine.delete_uploaded_file remote c h
               (with_session_state (init_keys (session_state rt0)) rt0))
    | None => with_session_state (init_keys (session_state rt0)) rt0
    end = (Returns (Some f), rt2) ->
  ∃ rt',
    app.script_run remote (click_process uf) rt = (Returns (), rt')
    ∧ uploaded_file_object (session_state rt') = Some (Some f)
    ∧ messages (session_state rt') = Some []
    ∧ cleanup_done (session_state rt') = Some false
    ∧ trace rt' = trace rt2.
Proof.
  intros E0 Ho Hup. eexists. split.
  - exact (successful_upload_run remote c err uf rt rt0 current f rt2 E0 Ho Hup).
  - by simpl.
Qed.

(** X5 on the first upload of a new session. *)
Lemma successful_upload_stores_handle_witness :
  ∃ rt',
    app.script_run service_up (click_process (doc "report.pdf" "one"))
      (new_process secrets_ok) = (Returns (), rt')
    ∧ uploaded_file_object (session_state rt')
      = Some (Some {| types.name := "files/temp_uploads/report.pdf" |})
    ∧ messages (session_state rt') = Some [].
Proof.
  destruct (successful_upload_stores_handle service_up the_client None
              (doc "report.pdf" "one") (new_process secrets_ok)
              (snd (engine.initialize_client service_up (new_process secrets_ok)))
              (snd (engine.upload_document service_up the_client
                      (doc "report.pdf" "one")
                      (with_session_state
                         (init_keys (session_state
                            (snd (engine.initialize_client service_up
                                    (new_process secrets_ok)))))
                         (snd (engine.initialize_client service_up
                                 (new_process secrets_ok))))))
              None {| types.name := "files/temp_uploads/report.pdf" |})
    as (rt' & E & Ho & Hm & _); try (vm_compute; reflexivity).
  exists rt'. auto.
Defined.

(** ** The table of [upload_document] across the page *)

Lemma keeps_bind {A B} (m : Py A) (k : A -> Py B) :
  keeps m -> (∀ a, keeps (k a)) -> keeps (m ≫= k).
Proof.
  intros Hm Hk rt H. specialize (Hm rt H). unfold mbind, Py_bind.
  destruct (m rt) as [[a|e] rt']; simpl in *; [|done]. by apply Hk.
Qed.

Lemma keeps_try_except {A} (m : Py A) catches handler :
  keeps m -> (∀ e, keeps (handler e)) -> keeps (try_except m catches handler).
Proof.
  intros Hm Hh rt H. specialize (Hm rt H). unfold try_except.
  destruct (m rt) as [[a|e] rt']; simpl in *; [done|].
  destruct (catches e); [|done]. by apply Hh.
Qed.

(** What leaves the two tables as they are keeps the property. *)
Lemma keeps_same {A} (m : Py A) :
  (∀ rt, cache_upload_document (snd (m rt)) = cache_upload_document rt
         ∧ elements_upload_document (snd (m rt)) = elements_upload_document rt) ->
  keeps m.
Proof.
  intros Hsame rt H key h. destruct (Hsame rt) as [-> ->]. apply H.
Qed.

Lemma keeps_skip : keeps skip.
Proof. by apply keeps_same. Qed.

Lemma keeps_emit e : keeps (emit e).
Proof. by apply keeps_same. Qed.

Lemma keeps_raise {A} c msg : keeps (@raise A c msg).
Proof. by apply keeps_same. Qed.

Lemma keeps_assign upd : keeps (assign upd).
Proof. by apply keeps_same. Qed.

Lemma keeps_has_key {A} (field : SessionState -> option A) :
  keeps (has_key field).
Proof. by apply keeps_same. Qed.

Lemma keeps_read_key {A} key (field : SessionState -> option A) :
  keeps (read_key key field).
Proof.
  apply keeps_same. intros rt. unfold read_key.
  by destruct (field (session_state rt)).
Qed.

Section MainKeeps.

Variable remote : Remote.

Lemma keeps_delete_uploaded_file c f :
  keeps (engine.delete_uploaded_file remote c f).
Proof. apply keeps_same. intros rt. by rewrite delete_uploaded_file_eq. Qed.

Lemma keeps_process_document c f p :
  keeps (engine.process_document remote c f p).
Proof.
  apply keeps_same. intros rt. rewrite process_document_eq. simpl.
  by destruct (on_generate remote _ c _ _).
Qed.

Lemma keeps_initialize_client : keeps (engine.initialize_client remote).
Proof.
  apply keeps_same. intros rt.
  unfold engine.initialize_client, st_cache_resource.
  destruct (cache_initialize_client rt !! ()) as [r|]; [done|].
  destruct (initialize_client_body_run remote rt) as (o & new & -> & _).
  destruct o; simpl; by rewrite log_all_eq.
Qed.

(** [upload_document] itself: a handle is stored only by a run of the body
    whose upload returned, and such a run shows nothing. *)
Lemma keeps_upload_document c uf : keeps (engine.upload_document remote c uf).
Proof.
  intros rt H key h.
  destruct (engine.upload_document remote c uf rt) as [[v|e] rt1] eqn:E.
  2: { rewrite upload_document_eq in E. cbv zeta in E.
       destruct (cache_upload_document rt !! _) as [v|]; [done|].
       destruct (upload_document_body_run remote c uf rt) as (o & new & Eb & _).
       rewrite Eb in E. destruct o; [done|]. injection E as _ <-.
       simpl. rewrite log_all_eq. simpl. apply H. }
  destruct (upload_document_stores remote c uf rt v rt1 E) as [Hv Hmiss].
  rewrite upload_document_eq in E. cbv zeta in E.
  destruct (cache_upload_document rt
              !! (UploadedFile.name uf, UploadedFile.getbuffer uf))
    as [v0|] eqn:Ec.
  { injection E as _ <-. simpl. rewrite log_all_eq. simpl. apply H. }
  destruct (Hmiss eq_refl) as [Hr Hel]. simpl.
  destruct (decide (key = (UploadedFile.name uf, UploadedFile.getbuffer uf)))
    as [-> | Hne].
  - rewrite Hv, Hel. intros [= ->]. simpl.
    by destruct (on_upload remote _ c _).
  - destruct (engine.upload_document_body remote c uf rt) as [[v'|e] rt'] eqn:Eb;
      [|done].
    destruct (upload_document_body_run remote c uf rt) as (o & new & Eb' & _).
    rewrite Eb in Eb'. injection Eb' as _ ->.
    injection E as _ <-. simpl.
    rewrite !lookup_insert_ne by done. rewrite log_all_eq. simpl. apply H.
Qed.

Lemma keeps_chat_with_document c prompt :
  keeps (app.chat_with_document remote c prompt).
Proof.
  unfold app.chat_with_document.
  apply keeps_bind; [by apply keeps_same|]. intros rt0.
  destruct (uploaded_file_object (session_state rt0)) as [[f|]|];
    try apply keeps_emit.
  apply keeps_bind; [apply keeps_has_key|]. intros present.
  apply keeps_bind.
  { destruct present; [apply keeps_skip|].
    apply keeps_bind; [apply keeps_assign|]. intros _.
    apply keeps_bind; [apply keeps_read_key|]. intros ms.
    apply keeps_assign. }
  intros _. apply keeps_bind; [apply keeps_read_key|]. intros ms.
  apply keeps_bind.
  { apply keeps_same. intros rt. rewrite for_each_emit. simpl.
    by rewrite log_all_eq. }
  intros _. destruct prompt as [[|a p]|]; try apply keeps_skip.
  apply keeps_bind; [apply keeps_read_key|]. intros ms'.
  apply keeps_bind; [apply keeps_assign|]. intros _.
  apply keeps_bind; [apply keeps_emit|]. intros _.
  apply keeps_bind; [apply keeps_process_document|]. intros response.
  apply keeps_bind; [apply keeps_emit|]. intros _.
  apply keeps_bind; [apply keeps_read_key|]. intros ms''.
  apply keeps_assign.
Qed.

Lemma keeps_process_document_clicked c uf :
  keeps (app.process_document_clicked remote c uf).
Proof.
  unfold app.process_document_clicked.
  apply keeps_bind; [apply keeps_read_key|]. intros current.
  apply keeps_bind.
  { destruct current; [apply keeps_delete_uploaded_file | apply keeps_skip]. }
  intros _. apply keeps_bind; [apply keeps_upload_document|].
  intros [f|]; [|apply keeps_skip].
  repeat (apply keeps_bind; [apply keeps_assign|]; intros _).
  apply keeps_raise.
Qed.

Lemma keeps_manual_delete c w : keeps (app.manual_delete remote c w).
Proof.
  unfold app.manual_delete.
  apply keeps_bind; [apply keeps_read_key|]. intros [h|]; [|apply keeps_skip].
  apply keeps_bind; [apply keeps_read_key|]. intros done.
  destruct (negb done); [|apply keeps_skip].
  destruct (delete_clicked w); [|apply keeps_skip].
  apply keeps_bind; [apply keeps_delete_uploaded_file|]. intros _.
  repeat (apply keeps_bind; [apply keeps_assign|]; intros _).
  apply keeps_raise.
Qed.

Lemma keeps_main w : keeps (app.main remote w).
Proof.
  unfold app.main.
  apply keeps_bind; [apply keeps_initialize_client|].
  intros [[c|] error_message].
  - apply keeps_bind; [apply keeps_has_key|]. intros present.
    apply keeps_bind.
    { destruct present; [apply keeps_skip | apply keeps_assign]. }
    intros _. apply keeps_bind; [apply keeps_has_key|]. intros present'.
    apply keeps_bind.
    { destruct present'; [apply keeps_skip | apply keeps_assign]. }
    intros _. apply keeps_bind; [apply keeps_read_key|]. intros current.
    apply keeps_bind.
    { destruct current, (file_uploader w);
        try apply keeps_skip; apply keeps_emit. }
    intros _. apply keeps_bind.
    { destruct (file_uploader w) as [uf|]; [|apply keeps_skip].
      destruct (process_clicked w); [|apply keeps_skip].
      apply keeps_process_document_clicked. }
    intros _. apply keeps_bind; [apply keeps_manual_delete|].
    intros _. apply keeps_chat_with_document.
  - destruct error_message; [apply keeps_emit | apply keeps_raise].
Qed.

Lemma keeps_script_run w : keeps (app.script_run remote w).
Proof.
  unfold app.script_run.
  apply keeps_try_except; [apply keeps_main|].
  intros _. apply keeps_main.
Qed.

End MainKeeps.

(** It holds in every runtime the page of [app.py] reaches from a new
    process, whatever the host. *)
Lemma stored_handles_show_nothing_reachable
    (remote : Remote) (ws : list Widgets) sec os :
  stored_handles_show_nothing
    (foldl (λ rt w, snd (app.script_run remote w rt))
       (with_host os (new_process sec)) ws).
Proof.
  assert (stored_handles_show_nothing (with_host os (new_process sec))) as H0
    by (intros key h; simpl; by rewrite lookup_empty).
  revert H0. generalize (with_host os (new_process sec)).
  induction ws as [|w ws IH]; intros rt H0; simpl; [done|].
  apply IH. by apply keeps_script_run.
Qed.

(** X6.  In a session that holds the handle [h], "Process Document" is
    clicked for a file whose upload result is already stored in the process
    (the file was processed before).  Then the interaction makes exactly one
    SDK call, the deletion of [h], and no upload; the stored handle [h'] is
    put in the session, and the elements kept with it are shown again.
    There are none in the runtimes the page reaches
    ([stored_handles_show_nothing_reachable]): there the deletion and its
    report are all that happens.  When [h'] is [h] (the document already
    loaded is processed again) the session ends up holding the handle it has
    just asked the service to delete. *)
Theorem reprocessing_deletes_and_keeps_stored_handle
    (remote : Remote) (c : Client) (err : option string) (h h' : types.File)
    (flag : bool) (uf : UploadedFile.t) (rt : Runtime) :
  cache_initialize_client rt !! () = Some (Some c, err) ->
  uploaded_file_object (session_state rt) = Some (Some h) ->
  cleanup_done (session_state rt) = Some flag ->
  cache_upload_document rt !! (UploadedFile.name uf, UploadedFile.getbuffer uf)
    = Some (Some h') ->
  ∃ rt',
    app.script_run remote (click_process uf) rt = (Returns (), rt')
    ∧ uploaded_file_object (session_state rt') = Some (Some h')
    ∧ trace rt' =
        trace rt ++ [files_delete (types.name h);
                     delete_report h (on_delete remote (trace rt) c (types.name h))]
          ++ (show <$> default []
                (elements_upload_document rt
                   !! (UploadedFile.name uf, UploadedFile.getbuffer uf)))
    ∧ (stored_handles_show_nothing rt ->
       trace rt' =
         trace rt ++ [files_delete (types.name h);
                      delete_report h
                        (on_delete remote (trace rt) c (types.name h))]).
Proof.
  intros Hc Ho Hd Hu.
  assert (init_keys (session_state rt) = session_state rt) as Hk.
  { unfold init_keys. rewrite Ho. by rewrite Hd. }
  eexists. split.
  - eapply (successful_upload_run remote c err uf rt rt (Some h) h').
    + by apply initialize_client_hit.
    + by rewrite Hk.
    + rewrite Hk, with_session_state_id, delete_uploaded_file_eq. simpl.
      rewrite upload_document_eq. simpl. by rewrite Hu.
  - simpl. split; [done|]. rewrite trace_log_all. simpl.
    split; [by rewrite <- !app_assoc|].
    intros Hnone. rewrite (Hnone _ _ Hu). simpl.
    by rewrite app_nil_r, <- !app_assoc.
Qed.

(** X6 on report.pdf processed a second time in [scenario_2]: the deletion
    and its toast are all that happens. *)
Lemma reprocessing_deletes_and_keeps_stored_handle_witness :
  ∃ rt',
    app.script_run service_up (click_process (doc "report.pdf" "one")) scenario_2
      = (Returns (), rt')
    ∧ uploaded_file_object (session_state rt')
      = Some (Some {| types.name := "files/temp_uploads/report.pdf" |})
    ∧ trace rt'
      = trace scenario_2
          ++ [files_delete "files/temp_uploads/report.pdf";
              st_toast "Clean up complete. File files/temp_uploads/report.pdf deleted."]
    ∧ filter is_sdk_call (since (List.length (trace scenario_2)) (trace rt'))
      = [files_delete "files/temp_uploads/report.pdf"].
Proof.
  destruct (reprocessing_deletes_and_keeps_stored_handle service_up the_client
              None {| types.name := "files/temp_uploads/report.pdf" |}
              {| types.name := "files/temp_uploads/report.pdf" |} false
              (doc "report.pdf" "one") scenario_2)
    as (rt' & E & Ho & _ & Ht); try (vm_compute; reflexivity).
  specialize (Ht (stored_handles_show_nothing_reachable service_up
                    [click_process (doc "report.pdf" "one");
                     ask (doc "report.pdf" "one") "summarize"]
                    secrets_ok host_ok)).
  exists rt'. split; [exact E|]. split; [exact Ho|]. split; [exact Ht|].
  rewrite Ht. unfold since. rewrite drop_app_length. reflexivity.
Defined.

(** ** A write that fails *)

(** X18.  In a session that holds the handle [h], "Process Document" is
    clicked for a file whose result is not stored, and the file system
    refuses the write ([open] raises: the name holds a separator and the
    directory under it does not exist, the name is empty or too long, the
    disk is full).  The write is before the [try] of [upload_document] and
    nothing in [app.py] catches its error: the interaction is left by that
    error after [files.delete] has been called for [h].  No upload is
    attempted, [os.remove] and [os.rmdir] are not called (the directory that
    [mkdir] made stays), nothing is stored, and the session still holds
    [h], with its history. *)
Theorem write_failure_leaves_script
    (remote : Remote) (c : Client) (err : option string) (h : types.File)
    (flag : bool) (uf : UploadedFile.t) (rt : Runtime) (msg : string) :
  let path := temp_file_path (UploadedFile.name uf) in
  let data := UploadedFile.getbuffer uf in
  let rt1 :=
    log (delete_report h (on_delete remote (trace rt) c (types.name h)))
      (log (files_delete (types.name h)) rt) in
  cache_initialize_client rt !! () = Some (Some c, err) ->
  uploaded_file_object (session_state rt) = Some (Some h) ->
  cleanup_done (session_state rt) = Some flag ->
  cache_upload_document rt !! (UploadedFile.name uf, data) = None ->
  on_mkdir (host rt) (trace rt1) temp_dir = Ok () ->
  on_open (host rt) (trace rt1) path data = Err msg ->
  app.script_run remote (click_process uf) rt
  = (os_error msg, log (open_wb path data) rt1).
Proof.
  intros path data rt1 Hc Ho Hd Hu Hm Hw.
  unfold app.script_run, try_except.
  rewrite (main_eq remote _ rt c err _ _ Hc Ho Hd). simpl.
  unfold skip, mbind, Py_bind, mret, Py_ret.
  rewrite (process_document_clicked_eq remote c uf rt _ Ho). simpl.
  rewrite delete_uploaded_file_eq. simpl. fold rt1.
  rewrite upload_document_eq. cbv zeta.
  replace (cache_upload_document rt1) with (cache_upload_document rt)
    by reflexivity.
  fold data. rewrite Hu, upload_document_body_eq. cbv zeta.
  fold path data.
  replace (host rt1) with (host rt) by reflexivity.
  by rewrite Hm, Hw.
Qed.

(** X18 in [scenario_1], for a file named "sub/new.pdf" on a host that
    refuses the write. *)
Lemma write_failure_leaves_script_witness :
  let rt := with_host host_refusing_open scenario_1 in
  ∃ rt',
    app.script_run service_up (click_process (doc "sub/new.pdf" "two")) rt
    = (os_error "[Errno 2] No such file or directory", rt')
    ∧ since (List.length (trace rt)) (trace rt')
      = [files_delete "files/temp_uploads/report.pdf";
         st_toast "Clean up complete. File files/temp_uploads/report.pdf deleted.";
         open_wb "temp_uploads/sub/new.pdf" "two"]
    ∧ session_state rt' = session_state rt
    ∧ uploaded_file_object (session_state rt')
      = Some (Some {| types.name := "files/temp_uploads/report.pdf" |}).
Proof.
  intros rt. eexists. split.
  - apply (write_failure_leaves_script service_up the_client None
             {| types.name := "files/temp_uploads/report.pdf" |} false
             (doc "sub/new.pdf" "two") rt);
      vm_compute; reflexivity.
  - split; [|split]; vm_compute; reflexivity.
Defined.

(** ** The client across the process *)

(** X7.  With no stored result and a key in the secrets that is neither the
    placeholder nor empty, [engine.initialize_client] calls [genai.Client]
    once with that key and returns: the client and no message if the
    constructor returned, no client and "Error initializing Gemini Client: "
    followed by the error if it raised.  Either result is stored. *)
Theorem initialize_client_with_key
    (remote : Remote) (rt : Runtime) (k : string) :
  cache_initialize_client rt !! () = None ->
  secrets rt !! "GEMINI_API_KEY" = Some k ->
  k ≠ "YOUR_ACTUAL_API_KEY" ->
  k ≠ "" ->
  ∃ rt1,
    engine.initialize_client remote rt
      = (Returns (client_result (on_Client remote (trace rt) k)), rt1)
    ∧ trace rt1 = trace rt ++ [genai_Client k]
    ∧ cache_initialize_client rt1 !! ()
      = Some (client_result (on_Client remote (trace rt) k))
    ∧ session_state rt1 = session_state rt.
Proof.
  intros Hc Hk Hp He.
  unfold engine.initialize_client, st_cache_resource.
  rewrite Hc, initialize_client_body_eq, Hk.
  rewrite bool_decide_eq_false_2.
  2: { intros Hin. apply elem_of_cons in Hin as [-> | Hin]; [done|].
       by apply list_elem_of_singleton in Hin. }
  destruct (on_Client remote (trace rt) k); eexists; (split; [reflexivity|]);
    simpl; by rewrite lookup_insert_eq.
Qed.

(** X7 when the constructor raises. *)
Lemma initialize_client_with_key_witness :
  fst (engine.initialize_client service_no_client (new_process secrets_ok))
  = Returns (None, Some "Error initializing Gemini Client: invalid transport").
Proof.
  destruct (initialize_client_with_key service_no_client
              (new_process secrets_ok) "AIza-key" eq_refl eq_refl)
    as (rt1 & E & _).
  - intros [=].
  - intros [=].
  - rewrite E. reflexivity.
Defined.

(** X8.  A failed initialisation is kept for the life of the process: once
    [engine.initialize_client] has returned no client and a message, every
    later interaction with the page, from any session, under any secrets and
    with any service, shows "Client failed to initialize" with that message
    and does nothing else. *)
Theorem failed_initialization_is_kept
    (remote remote' : Remote) (rt rt1 rt2 : Runtime) (msg : string)
    (w : Widgets) :
  engine.initialize_client remote rt = (Returns (None, Some msg), rt1) ->
  cache_initialize_client rt2 = cache_initialize_client rt1 ->
  app.script_run remote' w rt2 =
  (Returns (), log (st_error ("🛑 Client failed to initialize. " +:+ msg)) rt2).
Proof.
  intros E Hsame.
  destruct (initialize_client_run remote rt)
    as (o & new & rt1' & E' & _ & _ & _ & Hr & _).
  rewrite E in E'. injection E' as <- <-.
  pose proof (Hr _ eq_refl) as Hc.
  rewrite <- Hsame in Hc.
  unfold app.script_run, try_except, app.main.
  by rewrite (bind_Returns _ _ _ _ _ (initialize_client_hit remote' rt2 _ Hc)).
Qed.

(** X8: the key is missing at the first run and supplied afterwards. *)
Lemma failed_initialization_is_kept_witness :
  let rt1 := snd (engine.initialize_client service_up (new_process ∅)) in
  let rt2 := with_secrets secrets_ok rt1 in
  app.script_run service_up (click_process (doc "a.pdf" "A")) rt2 =
  (Returns (),
   log (st_error ("🛑 Client failed to initialize. " +:+ engine.KEY_not_found)) rt2).
Proof.
  intros rt1 rt2.
  apply (failed_initialization_is_kept service_up service_up (new_process ∅)
           rt1 rt2 engine.KEY_not_found); reflexivity.
Defined.

(** ** A chat turn *)

(** X9.  In a session that holds a handle, a prompt makes exactly one call
    of [generate_content], for the model "gemini-2.5-flash" with the held
    handle and the prompt, after the history was rendered; the history keeps
    what it had and gains the user's message and then the assistant's, whose
    content is the text returned (possibly [None]) or the fallback string;
    the handle and the flag are untouched. *)
Theorem chat_turn_appends_two_messages
    (remote : Remote) (c : Client) (f : types.File) (p : string) (rt : Runtime) :
  uploaded_file_object (session_state rt) = Some (Some f) ->
  p ≠ "" ->
  let ms := default [greeting] (messages (session_state rt)) in
  let user := st_chat_message "user" (Some p) in
  let r := on_generate remote (trace rt ++ rendered ms ++ [user]) c
             "gemini-2.5-flash" (f, p) in
  ∃ rt',
    app.chat_with_document remote c (Some p) rt = (Returns (), rt')
    ∧ messages (session_state rt') =
        Some (ms ++ [ {| role := "user"; content := Some p |};
                      {| role := "assistant"; content := answer r |} ])
    ∧ trace rt' =
        trace rt ++ rendered ms
          ++ [user; generate_content "gemini-2.5-flash" (f, p)]
          ++ generation_report r
          ++ [st_chat_message "assistant" (answer r)]
    ∧ uploaded_file_object (session_state rt') = Some (Some f)
    ∧ cleanup_done (session_state rt') = cleanup_done (session_state rt).
Proof.
  intros Hf Hp ms user r.
  rewrite (chat_with_document_eq remote c (Some p) rt f Hf). simpl.
  destruct p as [|a p]; [done|].
  rewrite process_document_eq. simpl.
  rewrite trace_log_all. simpl. fold ms. fold user.
  rewrite <- app_assoc. fold r.
  destruct r as [text|msg]; eexists; (split; [reflexivity|]); simpl;
    rewrite ?trace_log_all, ?session_state_log_all; simpl;
    (repeat split; try done); by rewrite <- !app_assoc.
Qed.

(** X9 on the question of the scenario. *)
Lemma chat_turn_appends_two_messages_witness :
  ∃ rt',
    app.chat_with_document service_up the_client (Some "summarize") scenario_1
      = (Returns (), rt')
    ∧ messages (session_state rt') =
        Some [ {| role := "user"; content := Some "summarize" |};
               {| role := "assistant"; content := Some "T1" |} ].
Proof.
  destruct (chat_turn_appends_two_messages service_up the_client
              {| types.name := "files/temp_uploads/report.pdf" |}
              "summarize" scenario_1)
    as (rt' & E & Hm & _); [vm_compute; reflexivity | done |].
  exists rt'. split; [exact E|]. rewrite Hm. reflexivity.
Defined.

(** ** document_analyzer_app.py *)

Section SingleFileFacts.

Variable remote : Remote.

Lemma single_file_upload_document_body_eq c uf rt :
  let file_name := UploadedFile.name uf in
  let path := temp_file_path file_name in
  let data := UploadedFile.getbuffer uf in
  let info := st_info ("Uploading file: " +:+ file_name
                       +:+ " to Google File API...") in
  document_analyzer_app.upload_document_body remote c uf rt =
  match on_mkdir (host rt) (trace rt) temp_dir with
  | Err msg => (os_error msg, rt)
  | Ok _ =>
      match on_open (host rt) (trace rt) path data with
      | Err msg => (os_error msg, log (open_wb path data) rt)
      | Ok _ =>
          let r := on_upload remote (trace rt ++ [open_wb path data; info]) c
                     path in
          match remove_local_copy path
                  (log_all (open_wb path data :: info :: files_upload path
                              :: single_file_upload_report r) rt) with
          | (Returns _, rt') => (Returns (upload_result r), rt')
          | (Raises e, rt') => (Raises e, rt')
          end
      end
  end.
Proof.
  intros file_name path data info.
  unfold document_analyzer_app.upload_document_body.
  fold file_name. fold path. fold data. fold info.
  fold (remove_local_copy path).
  unfold mkdir_exist_ok, open_wb_write, os_call, os_query, os_error. py_unfold.
  destruct (on_mkdir (host rt) (trace rt) temp_dir) as [[]|msg]; [|done].
  destruct (on_open (host rt) (trace rt) path data) as [[]|msg]; [|done].
  simpl. rewrite <- app_assoc. simpl.
  destruct (on_upload remote (trace rt ++ [open_wb path data; info]) c path)
    as [f|msg]; simpl;
    by destruct (remove_local_copy path _) as [[[]|e] rt'].
Qed.

(** Any call of [document_analyzer_app.initialize_client]: it builds at most
    one client; what it returns is under the key [client] afterwards; it
    raises only for want of a secrets file, and then changes nothing. *)
Lemma single_file_initialize_client_run rt :
  ∃ o new rt1,
    document_analyzer_app.initialize_client remote rt = (o, rt1)
    ∧ trace rt1 = trace rt ++ new
    ∧ (List.length (filter is_genai_Client new) ≤ 1)%nat
    ∧ (∀ v, o = Returns v -> client (session_state rt1) = Some v)
    ∧ ∀ e, o = Raises e -> rt1 = rt ∧ exc_class e = FileNotFoundError.
Proof.
  unfold document_analyzer_app.initialize_client, st_secrets, except_KeyError,
    except_Exception. py_unfold.
  destruct (client (session_state rt)) as [v|] eqn:Ec; simpl.
  - rewrite Ec. exists (Returns v), [], rt. rewrite app_nil_r. simpl.
    split_and!; auto with lia; [by intros ? [= <-] | done].
  - destruct (secrets rt !! "GEMINI_API_KEY") as [k|]; simpl.
    + destruct (on_Client remote (trace rt) k) as [cl|msg]; simpl;
        eexists _, [genai_Client k], _; (split; [reflexivity|]); simpl;
        split_and!; auto with lia; try done; by intros ? [= <-].
    + destruct (secrets_toml rt); simpl;
        eexists _, [], _; (split; [reflexivity|]); simpl;
        rewrite app_nil_r; split_and!; auto with lia; try done;
        by intros ? [= <-].
Qed.

End SingleFileFacts.

(** X10.  [upload_document] of [document_analyzer_app.py], case by case.  A
    stored result is returned with the elements of the stored run shown
    again and nothing written.  What [mkdir], [open] or the write raises
    leaves the function before anything is shown or uploaded.  Else the blob
    is written, the upload announced and attempted, its outcome shown, and
    then, whether it returned or raised, [os.remove] of the file is the next
    call; once it has returned the directory is listed and [os.rmdir] called
    exactly when the listing is empty. *)
Theorem single_file_upload_document_removes_local_copy
    (remote : Remote) (c : Client) (uf : UploadedFile.t) (rt : Runtime) :
  let file_name := UploadedFile.name uf in
  let data := UploadedFile.getbuffer uf in
  let path := temp_file_path file_name in
  let info := st_info ("Uploading file: " +:+ file_name
                       +:+ " to Google File API...") in
  let os := host rt in
  match cache_upload_document rt !! (file_name, data) with
  | Some v =>
      document_analyzer_app.upload_document remote c uf rt =
      (Returns v,
       log_all (show <$> default [] (elements_upload_document rt
                                       !! (file_name, data))) rt)
  | None =>
      match on_mkdir os (trace rt) temp_dir, on_open os (trace rt) path data with
      | Err msg, _ =>
          document_analyzer_app.upload_document remote c uf rt
          = (os_error msg, rt)
      | Ok _, Err msg =>
          document_analyzer_app.upload_document remote c uf rt
          = (os_error msg, log (open_wb path data) rt)
      | Ok _, Ok _ =>
          let r := on_upload remote (trace rt ++ [open_wb path data; info]) c
                     path in
          let attempt :=
            trace rt ++ [open_wb path data; info; files_upload path]
              ++ single_file_upload_report r in
          ∃ o rt',
            document_analyzer_app.upload_document remote c uf rt = (o, rt')
            ∧ match on_remove os attempt path with
              | Err msg =>
                  trace rt' = attempt ++ [os_remove path] ∧ o = os_error msg
              | Ok _ =>
                  match on_listdir os (attempt ++ [os_remove path]) temp_dir with
                  | Err msg =>
                      trace rt' = attempt ++ [os_remove path]
                      ∧ o = os_error msg
                  | Ok (_ :: _) =>
                      trace rt' = attempt ++ [os_remove path]
                      ∧ o = Returns (upload_result r)
                  | Ok [] =>
                      trace rt' = attempt ++ [os_remove path; os_rmdir temp_dir]
                      ∧ o = match on_rmdir os (attempt ++ [os_remove path])
                                    temp_dir with
                            | Ok _ => Returns (upload_result r)
                            | Err msg => os_error msg
                            end
                  end
              end
      end
  end.
Proof.
  intros file_name data path info os.
  unfold document_analyzer_app.upload_document, st_cache_resource.
  fold file_name data.
  destruct (cache_upload_document rt !! (file_name, data)) as [v|]; [done|].
  rewrite single_file_upload_document_body_eq. cbv zeta.
  fold file_name data path info os.
  destruct (on_mkdir os (trace rt) temp_dir) as [[]|msg]; [|done].
  destruct (on_open os (trace rt) path data) as [[]|msg]; [|done].
  rewrite remove_local_copy_eq. cbv zeta. rewrite host_log_all. fold os.
  clearbody os path data info file_name.
  destruct (on_upload remote (trace rt ++ [open_wb path data; info]) c path)
    as [f|m]; simpl; rewrite <- ?app_assoc; simpl.
  all: destruct (on_remove os _ path) as [[]|msg];
    [destruct (on_listdir os _ temp_dir) as [[|x l]|msg];
     [destruct (on_rmdir os _ temp_dir) as [[]|msg]|..]|].
  all: eexists _, _; (split; [reflexivity|]); simpl;
    rewrite <- ?app_assoc; simpl; by split.
Qed.

(** X10 on a document the service accepts, uploaded twice: the second call
    writes and uploads nothing and shows the two messages of the first
    again. *)
Lemma single_file_upload_document_removes_local_copy_witness :
  let rt1 := snd (document_analyzer_app.upload_document service_up the_client
                    (doc "a.pdf" "A") (new_process secrets_ok)) in
  trace rt1 =
    [open_wb "temp_uploads/a.pdf" "A";
     st_info "Uploading file: a.pdf to Google File API...";
     files_upload "temp_uploads/a.pdf";
     st_success "File uploaded successfully! Name: files/temp_uploads/a.pdf";
     os_remove "temp_uploads/a.pdf"; os_rmdir "temp_uploads"]
  ∧ document_analyzer_app.upload_document service_up the_client
      (doc "a.pdf" "A") rt1
    = (Returns (Some {| types.name := "files/temp_uploads/a.pdf" |}),
       log_all
         [st_info "Uploading file: a.pdf to Google File API...";
          st_success "File uploaded successfully! Name: files/temp_uploads/a.pdf"]
         rt1).
Proof.
  intros rt1. split; [vm_compute; reflexivity|].
  exact (single_file_upload_document_removes_local_copy service_up the_client
           (doc "a.pdf" "A") rt1).
Defined.



(** X12.  [initialize_client] of [document_analyzer_app.py] keeps its result
    in the session: once it has returned, every later call in a session
    whose key [client] is as it left it returns the same value and builds no
    client, whatever the secrets and the service are by then; a failure
    ([None]) is kept like a client. *)
Theorem single_file_client_kept_in_session
    (remote remote' : Remote) (v : option Client) (rt rt1 rt2 : Runtime) :
  document_analyzer_app.initialize_client remote rt = (Returns v, rt1) ->
  client (session_state rt2) = client (session_state rt1) ->
  document_analyzer_app.initialize_client remote' rt2 = (Returns v, rt2).
Proof.
  intros E Hsame.
  destruct (single_file_initialize_client_run remote rt)
    as (o & new & rt1' & E' & _ & _ & Hv & _).
  rewrite E in E'. injection E' as <- <-.
  pose proof (Hv _ eq_refl) as Hc.
  unfold document_analyzer_app.initialize_client, has_key, read_key.
  unfold mbind, Py_bind. rewrite Hsame, Hc. simpl. by rewrite Hsame, Hc.
Qed.

(** X12 on a session that started without the key. *)
Lemma single_file_client_kept_in_session_witness :
  let rt1 := snd (document_analyzer_app.initialize_client service_up
                    (new_process ∅)) in
  document_analyzer_app.initialize_client service_up (with_secrets secrets_ok rt1)
  = (Returns None, with_secrets secrets_ok rt1).
Proof.
  intros rt1.
  apply (single_file_client_kept_in_session service_up service_up None
           (new_process ∅) rt1 (with_secrets secrets_ok rt1)); reflexivity.
Defined.

(** X13.  In [document_analyzer_app.py], a session that starts while the key
    is missing.  If there is a secrets file (the lookup raises [KeyError]),
    the page shows the error and the recorded message, builds no client and
    does not touch the upload state; and it stays so for every later
    interaction of that session, even once the key is supplied.  If there is
    no secrets file at all, the lookup raises [FileNotFoundError], which the
    [except KeyError] does not catch: the script is left with nothing shown
    and nothing recorded. *)
Theorem single_file_missing_key_page
    (remote : Remote) (w : Widgets) (rt : Runtime) :
  client (session_state rt) = None ->
  secrets rt !! "GEMINI_API_KEY" = None ->
  let page :=
    [st_error "🛑 Gemini Client failed to initialize. Please check your API key setup.";
     st_code document_analyzer_app.GEMINI_API_KEY_not_found] in
  if secrets_toml rt then
    ∃ rt',
      document_analyzer_app.script_run remote w rt = (Returns (), rt')
      ∧ trace rt' = trace rt ++ page
      ∧ session_state rt' =
          set_client None
            (set_client_error document_analyzer_app.GEMINI_API_KEY_not_found
               (session_state rt))
      ∧ ∀ remote' w' sec,
          document_analyzer_app.script_run remote' w' (with_secrets sec rt')
          = (Returns (), log_all page (with_secrets sec rt'))
  else
    ∃ e,
      document_analyzer_app.script_run remote w rt = (Raises e, rt)
      ∧ exc_class e = FileNotFoundError.
Proof.
  intros Hc Hk page.
  unfold document_analyzer_app.script_run, document_analyzer_app.main,
    document_analyzer_app.initialize_client, st_secrets, except_KeyError.
  py_unfold. rewrite Hc. simpl. rewrite Hk. simpl.
  destruct (secrets_toml rt); simpl.
  - eexists. split; [reflexivity|]. simpl. rewrite <- app_assoc.
    repeat split.
  - eexists. split; reflexivity.
Qed.

(** X13 in a new process whose secrets file is empty, and in one that has no
    secrets file. *)
Lemma single_file_missing_key_page_witness :
  (∃ rt',
     document_analyzer_app.script_run service_up (click_process (doc "a.pdf" "A"))
       (new_process ∅) = (Returns (), rt')
     ∧ filter is_sdk_call (trace rt') = []
     ∧ uploaded_file_object (session_state rt') = None)
  ∧ ∃ e,
      document_analyzer_app.script_run service_up
        (click_process (doc "a.pdf" "A"))
        (without_secrets_toml (new_process ∅))
      = (Raises e, without_secrets_toml (new_process ∅))
      ∧ exc_class e = FileNotFoundError.
Proof.
  assert (∀ rt, rt = new_process ∅ ∨ rt = without_secrets_toml (new_process ∅) ->
                client (session_state rt) = None
                ∧ secrets rt !! "GEMINI_API_KEY" = None) as H0
    by (intros rt [-> | ->]; split; reflexivity).
  split.
  - destruct (H0 (new_process ∅)) as [Hc Hk]; [by left|].
    pose proof (single_file_missing_key_page service_up
                  (click_process (doc "a.pdf" "A")) (new_process ∅) Hc Hk) as H.
    simpl in H. destruct H as (rt' & E & Ht & Hs & _).
    exists rt'. split; [exact E|]. rewrite Ht, Hs. split; reflexivity.
  - destruct (H0 (without_secrets_toml (new_process ∅))) as [Hc Hk]; [by right|].
    exact (single_file_missing_key_page service_up
             (click_process (doc "a.pdf" "A"))
             (without_secrets_toml (new_process ∅)) Hc Hk).
Defined.

(** ** What [engine.py] and [app.py] do where the single-file variant differs *)

(** X14.  With no stored result, and the key missing from the secrets file,
    equal to the placeholder or empty, [engine.initialize_client] returns no
    client and the message "KEY not found ...", calls nothing, and stores
    that result.  With no secrets file at all it raises the
    [FileNotFoundError] of [st.secrets] instead, and stores nothing. *)
Theorem engine_rejects_unusable_key (remote : Remote) (rt : Runtime) :
  cache_initialize_client rt !! () = None ->
  ((secrets rt !! "GEMINI_API_KEY" = None ∧ secrets_toml rt = true)
   ∨ secrets rt !! "GEMINI_API_KEY" = Some "YOUR_ACTUAL_API_KEY"
   ∨ secrets rt !! "GEMINI_API_KEY" = Some "" ->
   engine.initialize_client remote rt =
   (Returns (None, Some engine.KEY_not_found),
    with_cache_initialize_client
      (<[() := (None, Some engine.KEY_not_found)]> (cache_initialize_client rt))
      rt)
   ∧ engine.KEY_not_found ≠ "")
  ∧ (secrets rt !! "GEMINI_API_KEY" = None ∧ secrets_toml rt = false ->
     ∃ e, engine.initialize_client remote rt = (Raises e, rt)
          ∧ exc_class e = FileNotFoundError).
Proof.
  intros Hc. split.
  - intros Hk. split; [|done].
    unfold engine.initialize_client, st_cache_resource.
    rewrite Hc, initialize_client_body_eq.
    by destruct Hk as [[-> ->] | [-> | ->]].
  - intros [Hk Ht].
    unfold engine.initialize_client, st_cache_resource.
    rewrite Hc, initialize_client_body_eq, Hk, Ht. eexists. by split.
Qed.

(** X14 at the empty string, and with no secrets file. *)
Lemma engine_rejects_unusable_key_witness :
  fst (engine.initialize_client service_up
         (new_process {[ "GEMINI_API_KEY" := "" ]}))
  = Returns (None, Some engine.KEY_not_found)
  ∧ ∃ e,
      engine.initialize_client service_up (without_secrets_toml (new_process ∅))
      = (Raises e, without_secrets_toml (new_process ∅))
      ∧ exc_class e = FileNotFoundError.
Proof.
  split.
  - destruct (engine_rejects_unusable_key service_up
                (new_process {[ "GEMINI_API_KEY" := "" ]}) eq_refl) as [H _].
    destruct H as [E _]; [right; right; reflexivity|].
    rewrite E. reflexivity.
  - destruct (engine_rejects_unusable_key service_up
                (without_secrets_toml (new_process ∅)) eq_refl) as [_ H].
    apply H. split; reflexivity.
Defined.

(** X15.  [engine.initialize_client] builds at most one client in a call,
    and what a call returned is returned by every later call in the process
    (any runtime with the table as that call left it), with nothing done,
    whatever the secrets, the session and the service are by then. *)
Theorem engine_client_reused
    (remote remote' : Remote) (r : option Client * option string)
    (rt rt1 rt2 : Runtime) :
  engine.initialize_client remote rt = (Returns r, rt1) ->
  cache_initialize_client rt2 = cache_initialize_client rt1 ->
  (∃ new, trace rt1 = trace rt ++ new
          ∧ (List.length (filter is_genai_Client new) ≤ 1)%nat)
  ∧ engine.initialize_client remote' rt2 = (Returns r, rt2).
Proof.
  intros E Hsame.
  destruct (initialize_client_run remote rt)
    as (o & new & rt1' & E' & Ht & Hn & _ & Hr & _).
  rewrite E in E'. injection E' as <- <-.
  split; [by exists new|].
  apply initialize_client_hit. rewrite Hsame. by apply Hr.
Qed.

(** X15 from a second session under other secrets. *)
Lemma engine_client_reused_witness :
  let rt1 := snd (engine.initialize_client service_up (new_process secrets_ok)) in
  let rt2 := with_session_state new_session (with_secrets ∅ rt1) in
  engine.initialize_client service_no_client rt2
  = (Returns (Some the_client, None), rt2).
Proof.
  intros rt1 rt2.
  apply (engine_client_reused service_up service_no_client
           (Some the_client, None) (new_process secrets_ok) rt1 rt2);
    reflexivity.
Defined.

Lemma rendered_no_files_delete ms : filter is_files_delete (rendered ms) = [].
Proof. induction ms as [|m ms IH]; simpl; [done | exact IH]. Qed.

(** X16.  In [app.py], with the client there and a handle [h] held, a run of
    [main] under a click on "Process Document" begins with the call
    [files.delete] for [h] and makes no other [files.delete] call, whether
    the upload that follows is stored, succeeds or fails. *)
Theorem app_replacement_deletes_once
    (remote : Remote) (c : Client) (err : option string) (h : types.File)
    (flag : bool) (uf : UploadedFile.t) (rt : Runtime) :
  cache_initialize_client rt !! () = Some (Some c, err) ->
  uploaded_file_object (session_state rt) = Some (Some h) ->
  cleanup_done (session_state rt) = Some flag ->
  ∃ o new rt',
    app.main remote (click_process uf) rt = (o, rt')
    ∧ trace rt' = trace rt ++ files_delete (types.name h) :: new
    ∧ filter is_files_delete new = [].
Proof.
  intros Hc Ho Hd.
  rewrite (main_eq remote _ rt c err _ _ Hc Ho Hd). simpl.
  unfold skip, mbind, Py_bind, mret, Py_ret.
  rewrite (process_document_clicked_eq remote c uf rt _ Ho). simpl.
  rewrite delete_uploaded_file_eq. simpl.
  set (rt1 := log (delete_report h (on_delete remote (trace rt) c (types.name h)))
                (log (files_delete (types.name h)) rt)).
  destruct (upload_document_run remote c uf rt1)
    as (o & new & rt2 & E & Ht & Hn & Hs & _).
  rewrite E.
  assert (trace rt2 = trace rt ++ files_delete (types.name h)
            :: delete_report h (on_delete remote (trace rt) c (types.name h))
            :: new) as Ht2
    by (rewrite Ht; subst rt1; simpl; by rewrite <- !app_assoc).
  destruct o as [[f|]|e].
  1,3: eexists _, _, _; (split; [reflexivity|]); simpl; (split; [exact Ht2|]);
    clear -Hn; by destruct (on_delete remote (trace rt) c (types.name h)).
  - assert (uploaded_file_object (session_state rt2) = Some (Some h)) as Ho2
      by (by rewrite Hs).
    assert (cleanup_done (session_state rt2) = Some flag) as Hd2
      by (by rewrite Hs).
    rewrite (manual_delete_eq remote c _ rt2 _ _ Ho2 Hd2). simpl.
    rewrite andb_false_r.
    rewrite (chat_with_document_eq remote c None rt2 h Ho2). simpl.
    eexists _, _, _. split; [reflexivity|].
    rewrite trace_log_all. simpl. rewrite Ht2.
    rewrite <- app_assoc. simpl. split; [reflexivity|].
    assert (filter is_files_delete
              (new ++ rendered (default [greeting] (messages (session_state rt2))))
            = []) as Hall
      by (by rewrite filter_app, Hn, rendered_no_files_delete).
    clear -Hall. by destruct (on_delete remote (trace rt) c (types.name h)).
Qed.

(** X16 on the second upload of the scenario. *)
Lemma app_replacement_deletes_once_witness :
  ∃ o new rt',
    app.main service_up (click_process (doc "report2.pdf" "two")) scenario_2
      = (o, rt')
    ∧ trace rt' = trace scenario_2
        ++ files_delete "files/temp_uploads/report.pdf" :: new
    ∧ filter is_files_delete new = [].
Proof.
  exact (app_replacement_deletes_once service_up the_client None
           {| types.name := "files/temp_uploads/report.pdf" |} false
           (doc "report2.pdf" "two") scenario_2 eq_refl eq_refl eq_refl).
Defined.

(** ** The greeting *)

(** X17.  In every session state the page of [app.py] can reach from a new
    process, whatever the interactions and the service were, a held handle
    comes with a history under the key [messages], and a render of the chat
    shows that history as it is: the greeting of [chat_with_document] is
    never added. *)
Theorem greeting_is_never_rendered
    (remote remote' : Remote) (sec : gmap string string) (ws : list Widgets)
    (c : Client) (f : types.File) :
  let rt := foldl (λ rt w, snd (app.script_run remote w rt)) (new_process sec) ws in
  uploaded_file_object (session_state rt) = Some (Some f) ->
  ∃ ms,
    messages (session_state rt) = Some ms
    ∧ app.chat_with_document remote' c None rt
      = (Returns (), log_all (rendered ms) rt).
Proof.
  intros rt Ho.
  destruct (history_with_handle_reachable remote ws sec) as [ms Hm]; [by exists f|].
  exists ms. split; [exact Hm|].
  by apply (chat_renders_history_as_is remote' c rt f ms).
Qed.

(** X17 after the upload and the question of the scenario. *)
Lemma greeting_is_never_rendered_witness :
  ∃ ms,
    messages (session_state scenario_2) = Some ms
    ∧ app.chat_with_document service_up the_client None scenario_2
      = (Returns (), log_all (rendered ms) scenario_2).
Proof.
  exact (greeting_is_never_rendered service_up service_up secrets_ok
           [click_process (doc "report.pdf" "one");
            ask (doc "report.pdf" "one") "summarize"]
           the_client {| types.name := "files/temp_uploads/report.pdf" |}
           eq_refl).
Defined.
